(** * Task-manager front end: the API client and the page handlers

    A shallow embedding of [lib/api.ts] (the axios instance, its request
    interceptor and the three API objects) and of the event handlers of the
    dashboard, task-detail, admin and root pages, followed by the properties
    of the client-side contract that these handlers implement.

    Strings are JavaScript strings: sequences of UTF-16 code units.
    Handlers are [async] functions over React state; they are embedded in a
    small state-and-exception monad over the component state and the
    browser (local storage, the requests sent, the router and the
    confirmation dialogs).  A handler reads the state captured by its
    closure (the state at the render that created it) and writes through
    the setters. *)

From Stdlib Require Import NArith String Ascii DecimalString.
From stdpp Require Import base option list gmap.

Set Default Proof Using "Type".
#[local] Open Scope N_scope.

(** ** JavaScript strings *)

Abbreviation jstring := (list N).

(** A string literal of the source, as code units. *)
Definition lit (s : string) : jstring :=
  List.map N_of_ascii (list_ascii_of_string s).

(** [!s] is true exactly for the empty string. *)
Definition falsy (s : jstring) : bool :=
  match s with [] => true | _ :: _ => false end.

(** [a || b] on a possibly undefined string [a]. *)
Definition or_else (a : option jstring) (b : jstring) : jstring :=
  match a with
  | Some s => if falsy s then b else s
  | None => b
  end.

(** Truthiness of a value that is an object or [null]. *)
Definition defined {A : Type} (value : option A) : bool :=
  match value with Some _ => true | None => false end.

(** The code units removed by [String.prototype.trim]: WhiteSpace and
    LineTerminator of ECMA-262 (all of them in the basic plane). *)
Definition is_white_space (c : N) : bool :=
  (c =? 0x09) || (c =? 0x0A) || (c =? 0x0B) || (c =? 0x0C) || (c =? 0x0D)
  || (c =? 0x20) || (c =? 0xA0) || (c =? 0x1680)
  || ((0x2000 <=? c) && (c <=? 0x200A))
  || (c =? 0x2028) || (c =? 0x2029) || (c =? 0x202F) || (c =? 0x205F)
  || (c =? 0x3000) || (c =? 0xFEFF).

Fixpoint trimStart (s : jstring) : jstring :=
  match s with
  | [] => []
  | c :: s' => if is_white_space c then trimStart s' else s
  end.

Definition trimEnd (s : jstring) : jstring := rev (trimStart (rev s)).

Definition trim (s : jstring) : jstring := trimEnd (trimStart s).

(** A string is blank when it is empty or made of white space only. *)
Definition blank (s : jstring) : Prop := Forall (fun c => is_white_space c = true) s.


(** ** Numbers

    Identifiers are JavaScript numbers.  The client only converts them to
    text (in a template literal) and obtains one from the route parameter
    with [parseInt]; both belong to the language, not to this program. *)

Class JsNumber := {
  number : Type;
  number_toString : number -> jstring;
  parseInt : jstring -> number;
}.

(** ** Data model *)

Inductive Status := pending | in_progress | completed.
Inductive Priority := low | medium | high.

#[global] Instance Status_eq_dec : EqDecision Status.
Proof. solve_decision. Defined.
#[global] Instance Priority_eq_dec : EqDecision Priority.
Proof. solve_decision. Defined.

(** The value of the dashboard's status filter:
    ['all' | 'pending' | 'in_progress' | 'completed']. *)
Inductive FilterStatus := all | having (s : Status).

Module Import Model.
Section Entities.
Context `{JsNumber}.

(** [interface Task] of the dashboard and task-detail pages. *)
Record Task := {
  id : number;
  user_id : number;
  title : jstring;
  description : jstring;
  status : Status;
  priority : Priority;
  due_date : jstring;
  created_at : jstring;
}.

(** [interface User] of the admin page.  The role is kept as the string
    the backend delivers; the pages compare it with ['admin']. *)
Record User := {
  user_ident : number;
  email : jstring;
  name : jstring;
  role : jstring;
}.

(** [interface Task] of the admin page (status and priority are plain
    strings there). *)
Record AdminTask := {
  at_id : number;
  at_user_id : number;
  at_title : jstring;
  at_description : jstring;
  at_status : jstring;
  at_priority : jstring;
}.

(** [interface CreateTaskData] *)
Record CreateTaskData := {
  c_title : jstring;
  c_description : jstring;
  c_priority : Priority;
  c_due_date : option jstring;
}.

(** [interface UpdateTaskData]: every field is optional. *)
Record UpdateTaskData := {
  u_title : option jstring;
  u_description : option jstring;
  u_status : option Status;
  u_priority : option Priority;
  u_due_date : option jstring;
}.
End Entities.
End Model.

(** ** HTTP requests and replies *)

Inductive Method := GET | POST | PUT | DELETE.

#[global] Instance Method_eq_dec : EqDecision Method.
Proof. solve_decision. Defined.

Section Http.
Context `{JsNumber}.

(** The second argument of [api.post] / [api.put]. *)
Inductive Body :=
| NoBody
| RegisterBody (email password name : jstring)
| LoginBody (email password : jstring)
| CreateBody (d : CreateTaskData)
| UpdateBody (d : UpdateTaskData).

(** A request as it leaves the axios instance. *)
Record Request := {
  baseURL : jstring;
  method : Method;
  url : jstring;
  Authorization : option jstring;
  data : Body;
}.

(** What the handlers read from a rejected call:
    [err.response?.data?.error]. *)
Record ErrorData := { error_text : jstring }.
Record ErrorResponse := { http_status : N; response_data : option ErrorData }.
Record AxiosError := { response : option ErrorResponse }.

Definition response_data_error (err : AxiosError) : option jstring :=
  match response err with
  | Some r => match response_data r with
              | Some d => Some (error_text d)
              | None => None
              end
  | None => None
  end.

(** A call either resolves with [response.data] or rejects. *)
Inductive Reply (A : Type) :=
| Resolved (response_data : A)
| Rejected (err : AxiosError).
#[global] Arguments Resolved {A} _.
#[global] Arguments Rejected {A} _.

(** The backend is an external collaborator: its reply to a request may
    depend on the requests it has received before.  Replies are typed by
    what the pages read from [response.data]; a list may be [null]. *)
Definition Oracle (A : Type) := list Request -> Request -> Reply A.

Record Backend := {
  auth_reply : Oracle unit;
  mutation_reply : Oracle unit;
  tasks_reply : Oracle (option (list Task));
  task_reply : Oracle Task;
  admin_users_reply : Oracle (option (list User));
  admin_tasks_reply : Oracle (option (list AdminTask));
}.

(** Everything outside the page: the build-time environment variable,
    the backend, and the person answering [confirm] dialogs. *)
Record Env := {
  NEXT_PUBLIC_API_URL : option jstring;
  backend : Backend;
  window_confirm : jstring -> bool;
}.

(** The part of the browser the pages act on. *)
Record Browser := {
  localStorage : gmap jstring jstring;
  sent : list Request;
  pushed : list jstring;
  dialogs : list jstring;
}.
End Http.

(** ** Handlers as computations *)

Section Monad.
Context `{JsNumber}.

Inductive Completion (A : Type) :=
| Normal (a : A)
| Throw (err : AxiosError).
#[global] Arguments Normal {A} _.
#[global] Arguments Throw {A} _.

Record Run (S A : Type) := {
  completion : Completion A;
  page : S;
  browser : Browser;
}.
#[global] Arguments completion {S A} _.
#[global] Arguments page {S A} _.
#[global] Arguments browser {S A} _.

Definition M (S A : Type) := Env -> S -> Browser -> Run S A.

Definition pure {S A} (a : A) : M S A :=
  fun _ st br => {| completion := Normal a; page := st; browser := br |}.

Definition bind {S A B} (m : M S A) (k : A -> M S B) : M S B :=
  fun env st br =>
    match m env st br with
    | {| completion := Normal a; page := st'; browser := br' |} => k a env st' br'
    | {| completion := Throw err; page := st'; browser := br' |} =>
        {| completion := Throw err; page := st'; browser := br' |}
    end.

(** [try { body } catch (err) { handler }] *)
Definition try_catch {S A} (body : M S A) (handler : AxiosError -> M S A) : M S A :=
  fun env st br =>
    match body env st br with
    | {| completion := Normal a; page := st'; browser := br' |} =>
        {| completion := Normal a; page := st'; browser := br' |}
    | {| completion := Throw err; page := st'; browser := br' |} =>
        handler err env st' br'
    end.

(** [try { body } finally { cleanup }] *)
Definition try_finally {S A} (body : M S A) (cleanup : M S unit) : M S A :=
  fun env st br =>
    match body env st br with
    | {| completion := c; page := st'; browser := br' |} =>
        match cleanup env st' br' with
        | {| completion := Normal _; page := st''; browser := br'' |} =>
            {| completion := c; page := st''; browser := br'' |}
        | {| completion := Throw err; page := st''; browser := br'' |} =>
            {| completion := Throw err; page := st''; browser := br'' |}
        end
    end.

(** A call of an [async] function whose promise is not awaited: its
    effects take place, its completion is dropped.  Every such call in
    the pages is the last statement of its block.  A run is carried on to
    its settled state, in which the backend has answered the call; the
    state in between, while the call is pending, is not represented. *)
Definition detached {S A} (m : M S A) : M S unit :=
  fun env st br =>
    match m env st br with
    | {| completion := _; page := st'; browser := br' |} =>
        {| completion := Normal tt; page := st'; browser := br' |}
    end.

(** A state setter of [useState]. *)
Definition set_state {S} (f : S -> S) : M S unit :=
  fun _ st br => {| completion := Normal tt; page := f st; browser := br |}.

(** [router.push(path)] *)
Definition router_push {S} (path : jstring) : M S unit :=
  fun _ st br =>
    {| completion := Normal tt; page := st;
       browser := {| localStorage := localStorage br; sent := sent br;
                     pushed := pushed br ++ [path]; dialogs := dialogs br |} |}.

(** [confirm(message)] *)
Definition confirm {S} (message : jstring) : M S bool :=
  fun env st br =>
    {| completion := Normal (window_confirm env message); page := st;
       browser := {| localStorage := localStorage br; sent := sent br;
                     pushed := pushed br; dialogs := dialogs br ++ [message] |} |}.

(** [await Promise.all([a, b])]: both calls are started, in order, before
    either is awaited; the result rejects when one of them does (the
    pages ignore which). *)
Definition promise_all2 {S A B} (a : M S A) (b : M S B) : M S (A * B) :=
  fun env st br =>
    match a env st br with
    | {| completion := ca; page := st'; browser := br' |} =>
        match b env st' br' with
        | {| completion := cb; page := st''; browser := br'' |} =>
            {| completion :=
                 match ca, cb with
                 | Normal x, Normal y => Normal (x, y)
                 | Throw err, _ => Throw err
                 | Normal _, Throw err => Throw err
                 end;
               page := st''; browser := br'' |}
        end
    end.

#[global] Instance M_ret {S} : MRet (M S) := fun A a => pure a.
#[global] Instance M_bind {S} : MBind (M S) := fun A B k m => bind m k.
End Monad.

(** ** lib/api.ts *)

Section Axios.
Context `{JsNumber}.

(** [process.env.NEXT_PUBLIC_API_URL || 'http://localhost:8080/api'] *)
Definition API_URL (env : Env) : jstring :=
  or_else (NEXT_PUBLIC_API_URL env) (lit "http://localhost:8080/api").

(** The request interceptor: [api.interceptors.request.use(...)]. *)
Definition interceptor (storage : gmap jstring jstring) (config : Request) : Request :=
  match storage !! lit "token" with
  | Some token =>
      if falsy token then config
      else {| baseURL := baseURL config; method := method config;
              url := url config;
              Authorization := Some (lit "Bearer " ++ token);
              data := data config |}
  | None => config
  end.

(** The configuration of a call on the instance
    [api = axios.create({ baseURL: API_URL })], after the interceptor. *)
Definition request_config (env : Env) (storage : gmap jstring jstring)
    (m : Method) (path : jstring) (body : Body) : Request :=
  interceptor storage
    {| baseURL := API_URL env; method := m; url := path;
       Authorization := None; data := body |}.

(** A call on the instance: the request is sent and the promise settles
    with the backend's reply. *)
Definition api_call {S A} (reply : Backend -> Oracle A)
    (m : Method) (path : jstring) (body : Body) : M S A :=
  fun env st br =>
    let config := request_config env (localStorage br) m path body in
    {| completion :=
         match reply (backend env) (sent br) config with
         | Resolved d => Normal d
         | Rejected err => Throw err
         end;
       page := st;
       browser := {| localStorage := localStorage br;
                     sent := sent br ++ [config];
                     pushed := pushed br; dialogs := dialogs br |} |}.
End Axios.

Module authAPI.
Section Api.
Context `{JsNumber} {S : Type}.

Definition register (email password name : jstring) : M S unit :=
  api_call auth_reply POST (lit "/auth/register") (RegisterBody email password name).
Definition login (email password : jstring) : M S unit :=
  api_call auth_reply POST (lit "/auth/login") (LoginBody email password).
Definition getMe : M S unit :=
  api_call auth_reply GET (lit "/auth/me") NoBody.
End Api.
End authAPI.

Module taskAPI.
Section Api.
Context `{JsNumber} {S : Type}.

Definition create (d : CreateTaskData) : M S unit :=
  api_call mutation_reply POST (lit "/tasks") (CreateBody d).
Definition getAll : M S (option (list Task)) :=
  api_call tasks_reply GET (lit "/tasks") NoBody.
Definition getById (n : number) : M S Task :=
  api_call task_reply GET (lit "/tasks/" ++ number_toString n) NoBody.
Definition update (n : number) (d : UpdateTaskData) : M S unit :=
  api_call mutation_reply PUT (lit "/tasks/" ++ number_toString n) (UpdateBody d).
Definition delete (n : number) : M S unit :=
  api_call mutation_reply DELETE (lit "/tasks/" ++ number_toString n) NoBody.
End Api.
End taskAPI.

Module adminAPI.
Section Api.
Context `{JsNumber} {S : Type}.

Definition getAllUsers : M S (option (list User)) :=
  api_call admin_users_reply GET (lit "/admin/users") NoBody.
Definition getAllTasks : M S (option (list AdminTask)) :=
  api_call admin_tasks_reply GET (lit "/admin/tasks") NoBody.
Definition promoteUser (userId : number) : M S unit :=
  api_call mutation_reply POST (lit "/admin/promote/" ++ number_toString userId) NoBody.
Definition deleteTask (taskId : number) : M S unit :=
  api_call mutation_reply DELETE (lit "/admin/tasks/" ++ number_toString taskId) NoBody.
End Api.
End adminAPI.

(** ** app/dashboard/page.tsx *)

Module Dashboard.
Section Page.
Context `{JsNumber}.

(** The [useState] cells of [DashboardPage]. *)
Record State := {
  tasks : list Task;
  title : jstring;
  description : jstring;
  priority : Priority;
  dueDate : jstring;
  error : jstring;
  tasksLoading : bool;
  showCreateForm : bool;
  filterStatus : FilterStatus;
  showEditModal : bool;
  editingTask : option Task;
  editTitle : jstring;
  editDescription : jstring;
  editPriority : Priority;
  editDueDate : jstring;
}.

Definition setTasks (v : list Task) : M State unit :=
  set_state (fun s =>
      {| tasks := v; title := title s; description := description s;
         priority := priority s; dueDate := dueDate s; error := error s;
         tasksLoading := tasksLoading s;
         showCreateForm := showCreateForm s;
         filterStatus := filterStatus s;
         showEditModal := showEditModal s; editingTask := editingTask s;
         editTitle := editTitle s; editDescription := editDescription s;
         editPriority := editPriority s; editDueDate := editDueDate s |}).
Definition setTitle (v : jstring) : M State unit :=
  set_state (fun s =>
      {| tasks := tasks s; title := v; description := description s;
         priority := priority s; dueDate := dueDate s; error := error s;
         tasksLoading := tasksLoading s;
         showCreateForm := showCreateForm s;
         filterStatus := filterStatus s;
         showEditModal := showEditModal s; editingTask := editingTask s;
         editTitle := editTitle s; editDescription := editDescription s;
         editPriority := editPriority s; editDueDate := editDueDate s |}).
Definition setDescription (v : jstring) : M State unit :=
  set_state (fun s =>
      {| tasks := tasks s; title := title s; description := v;
         priority := priority s; dueDate := dueDate s; error := error s;
         tasksLoading := tasksLoading s;
         showCreateForm := showCreateForm s;
         filterStatus := filterStatus s;
         showEditModal := showEditModal s; editingTask := editingTask s;
         editTitle := editTitle s; editDescription := editDescription s;
         editPriority := editPriority s; editDueDate := editDueDate s |}).
Definition setPriority (v : Priority) : M State unit :=
  set_state (fun s =>
      {| tasks := tasks s; title := title s;
         description := description s; priority := v;
         dueDate := dueDate s; error := error s;
         tasksLoading := tasksLoading s;
         showCreateForm := showCreateForm s;
         filterStatus := filterStatus s;
         showEditModal := showEditModal s; editingTask := editingTask s;
         editTitle := editTitle s; editDescription := editDescription s;
         editPriority := editPriority s; editDueDate := editDueDate s |}).
Definition setDueDate (v : jstring) : M State unit :=
  set_state (fun s =>
      {| tasks := tasks s; title := title s;
         description := description s; priority := priority s;
         dueDate := v; error := error s; tasksLoading := tasksLoading s;
         showCreateForm := showCreateForm s;
         filterStatus := filterStatus s;
         showEditModal := showEditModal s; editingTask := editingTask s;
         editTitle := editTitle s; editDescription := editDescription s;
         editPriority := editPriority s; editDueDate := editDueDate s |}).
Definition setError (v : jstring) : M State unit :=
  set_state (fun s =>
      {| tasks := tasks s; title := title s;
         description := description s; priority := priority s;
         dueDate := dueDate s; error := v;
         tasksLoading := tasksLoading s;
         showCreateForm := showCreateForm s;
         filterStatus := filterStatus s;
         showEditModal := showEditModal s; editingTask := editingTask s;
         editTitle := editTitle s; editDescription := editDescription s;
         editPriority := editPriority s; editDueDate := editDueDate s |}).
Definition setTasksLoading (v : bool) : M State unit :=
  set_state (fun s =>
      {| tasks := tasks s; title := title s;
         description := description s; priority := priority s;
         dueDate := dueDate s; error := error s; tasksLoading := v;
         showCreateForm := showCreateForm s;
         filterStatus := filterStatus s;
         showEditModal := showEditModal s; editingTask := editingTask s;
         editTitle := editTitle s; editDescription := editDescription s;
         editPriority := editPriority s; editDueDate := editDueDate s |}).
Definition setShowCreateForm (v : bool) : M State unit :=
  set_state (fun s =>
      {| tasks := tasks s; title := title s;
         description := description s; priority := priority s;
         dueDate := dueDate s; error := error s;
         tasksLoading := tasksLoading s; showCreateForm := v;
         filterStatus := filterStatus s;
         showEditModal := showEditModal s; editingTask := editingTask s;
         editTitle := editTitle s; editDescription := editDescription s;
         editPriority := editPriority s; editDueDate := editDueDate s |}).
Definition setFilterStatus (v : FilterStatus) : M State unit :=
  set_state (fun s =>
      {| tasks := tasks s; title := title s;
         description := description s; priority := priority s;
         dueDate := dueDate s; error := error s;
         tasksLoading := tasksLoading s;
         showCreateForm := showCreateForm s; filterStatus := v;
         showEditModal := showEditModal s; editingTask := editingTask s;
         editTitle := editTitle s; editDescription := editDescription s;
         editPriority := editPriority s; editDueDate := editDueDate s |}).
Definition setShowEditModal (v : bool) : M State unit :=
  set_state (fun s =>
      {| tasks := tasks s; title := title s;
         description := description s; priority := priority s;
         dueDate := dueDate s; error := error s;
         tasksLoading := tasksLoading s;
         showCreateForm := showCreateForm s;
         filterStatus := filterStatus s; showEditModal := v;
         editingTask := editingTask s; editTitle := editTitle s;
         editDescription := editDescription s;
         editPriority := editPriority s; editDueDate := editDueDate s |}).
Definition setEditingTask (v : option Task) : M State unit :=
  set_state (fun s =>
      {| tasks := tasks s; title := title s;
         description := description s; priority := priority s;
         dueDate := dueDate s; error := error s;
         tasksLoading := tasksLoading s;
         showCreateForm := showCreateForm s;
         filterStatus := filterStatus s;
         showEditModal := showEditModal s; editingTask := v;
         editTitle := editTitle s; editDescription := editDescription s;
         editPriority := editPriority s; editDueDate := editDueDate s |}).
Definition setEditTitle (v : jstring) : M State unit :=
  set_state (fun s =>
      {| tasks := tasks s; title := title s;
         description := description s; priority := priority s;
         dueDate := dueDate s; error := error s;
         tasksLoading := tasksLoading s;
         showCreateForm := showCreateForm s;
         filterStatus := filterStatus s;
         showEditModal := showEditModal s; editingTask := editingTask s;
         editTitle := v; editDescription := editDescription s;
         editPriority := editPriority s; editDueDate := editDueDate s |}).
Definition setEditDescription (v : jstring) : M State unit :=
  set_state (fun s =>
      {| tasks := tasks s; title := title s;
         description := description s; priority := priority s;
         dueDate := dueDate s; error := error s;
         tasksLoading := tasksLoading s;
         showCreateForm := showCreateForm s;
         filterStatus := filterStatus s;
         showEditModal := showEditModal s; editingTask := editingTask s;
         editTitle := editTitle s; editDescription := v;
         editPriority := editPriority s; editDueDate := editDueDate s |}).
Definition setEditPriority (v : Priority) : M State unit :=
  set_state (fun s =>
      {| tasks := tasks s; title := title s;
         description := description s; priority := priority s;
         dueDate := dueDate s; error := error s;
         tasksLoading := tasksLoading s;
         showCreateForm := showCreateForm s;
         filterStatus := filterStatus s;
         showEditModal := showEditModal s; editingTask := editingTask s;
         editTitle := editTitle s; editDescription := editDescription s;
         editPriority := v; editDueDate := editDueDate s |}).
Definition setEditDueDate (v : jstring) : M State unit :=
  set_state (fun s =>
      {| tasks := tasks s; title := title s;
         description := description s; priority := priority s;
         dueDate := dueDate s; error := error s;
         tasksLoading := tasksLoading s;
         showCreateForm := showCreateForm s;
         filterStatus := filterStatus s;
         showEditModal := showEditModal s; editingTask := editingTask s;
         editTitle := editTitle s; editDescription := editDescription s;
         editPriority := editPriority s; editDueDate := v |}).

(** The initial values passed to [useState]. *)
Definition initial : State :=
  {| tasks := []; title := []; description := []; priority := medium;
     dueDate := []; error := []; tasksLoading := true; showCreateForm := false;
     filterStatus := all; showEditModal := false; editingTask := None;
     editTitle := []; editDescription := []; editPriority := medium;
     editDueDate := [] |}.

Definition fetchTasks : M State unit :=
  try_finally
    (try_catch
       (setTasksLoading true;;
        response_data ← taskAPI.getAll;
        setTasks (default [] response_data))
       (fun _err => setError (lit "Failed to load tasks")))
    (setTasksLoading false).

Definition handleCreateTask (s : State) : M State unit :=
  setError [];;
  if falsy (trim (title s)) then
    setError (lit "Title is required")
  else
    try_catch
      (taskAPI.create
         {| c_title := title s; c_description := description s;
            c_priority := priority s; c_due_date := Some (dueDate s) |};;
       setTitle [];;
       setDescription [];;
       setPriority medium;;
       setDueDate [];;
       setShowCreateForm false;;
       detached fetchTasks)
      (fun err =>
         setError (or_else (response_data_error err) (lit "Failed to create task"))).

Definition handleOpenEdit (task : Task) : M State unit :=
  setEditingTask (Some task);;
  setEditTitle (Model.title task);;
  setEditDescription (Model.description task);;
  setEditPriority (Model.priority task);;
  setEditDueDate (due_date task);;
  setShowEditModal true.

Definition handleSaveEdit (s : State) : M State unit :=
  match editingTask s with
  | None => mret tt
  | Some task =>
      setError [];;
      if falsy (trim (editTitle s)) then
        setError (lit "Title is required")
      else
        try_catch
          (taskAPI.update (id task)
             {| u_title := Some (editTitle s);
                u_description := Some (editDescription s);
                u_status := None;
                u_priority := Some (editPriority s);
                u_due_date := Some (editDueDate s) |};;
           setShowEditModal false;;
           setEditingTask None;;
           detached fetchTasks)
          (fun err =>
             setError (or_else (response_data_error err) (lit "Failed to update task")))
  end.

Definition handleUpdateStatus (taskId : number) (newStatus : Status) : M State unit :=
  try_catch
    (taskAPI.update taskId
       {| u_title := None; u_description := None; u_status := Some newStatus;
          u_priority := None; u_due_date := None |};;
     detached fetchTasks)
    (fun _err => setError (lit "Failed to update task status")).

Definition handleDeleteTask (taskId : number) : M State unit :=
  ok ← confirm (lit "Are you sure you want to delete this task?");
  if negb ok then mret tt
  else
    try_catch
      (taskAPI.delete taskId;;
       detached fetchTasks)
      (fun _err => setError (lit "Failed to delete task")).

(** The list that is rendered. *)
Definition filteredTasks (s : State) : list Task :=
  match filterStatus s with
  | all => tasks s
  | having wanted => filter (fun task => status task = wanted) (tasks s)
  end.

(** The inline error banner: [{error && (...)}]. *)
Definition error_banner (s : State) : option jstring :=
  if falsy (error s) then None else Some (error s).

(** The two effects of [DashboardPage]: the access guard and the initial
    load.  The call of [fetchTasks] in the effect is not awaited. *)
Definition guard_effect (user : option User) (loading : bool) : M State unit :=
  if negb loading && negb (defined user) then router_push (lit "/login")
  else mret tt.

Definition load_effect (user : option User) : M State unit :=
  match user with
  | Some _ => detached fetchTasks
  | None => mret tt
  end.

(** The Cancel button of the edit modal (an inline handler). *)
Definition cancelEdit : M State unit :=
  setShowEditModal false;;
  setEditingTask None.

(** The four counters above the list: [const stats = {...}]. *)
Record Stats := {
  total : nat;
  pendingCount : nat;
  inProgressCount : nat;
  completedCount : nat;
}.

Definition stats (s : State) : Stats :=
  {| total := length (tasks s);
     pendingCount := length (filter (fun t => status t = pending) (tasks s));
     inProgressCount := length (filter (fun t => status t = in_progress) (tasks s));
     completedCount := length (filter (fun t => status t = completed) (tasks s)) |}.

(** What the component returns: the loading screen, nothing, or the page
    with its admin link, error banner, list area and edit modal. *)
Inductive ListArea :=
| ListSpinner
| NoTasksFound
| TaskCards (cards : list Task).

Inductive View :=
| LoadingScreen
| Nothing
| Content (admin_link : bool) (banner : option jstring) (area : ListArea)
    (modal : option Task).

Definition list_area (s : State) : ListArea :=
  if tasksLoading s then ListSpinner
  else match filteredTasks s with
       | [] => NoTasksFound
       | cards => TaskCards cards
       end.

Definition render (user : option User) (loading : bool) (s : State) : View :=
  if loading then LoadingScreen
  else match user with
       | None => Nothing
       | Some u =>
           Content (bool_decide (role u = lit "admin")) (error_banner s) (list_area s)
             (if showEditModal s then editingTask s else None)
       end.
End Page.
End Dashboard.

(** ** app/tasks/[id]/page.tsx *)

Module TaskDetail.
Section Page.
Context `{JsNumber}.

(** The route parameter [params.id]. *)
Variable taskId : jstring.

(** The [useState] cells of [TaskDetailPage]. *)
Record State := {
  task : option Task;
  loading : bool;
  error : jstring;
  isEditing : bool;
  editTitle : jstring;
  editDescription : jstring;
  editPriority : Priority;
  editDueDate : jstring;
}.

Definition setTask (v : option Task) : M State unit :=
  set_state (fun s =>
      {| task := v; loading := loading s; error := error s;
         isEditing := isEditing s; editTitle := editTitle s;
         editDescription := editDescription s;
         editPriority := editPriority s; editDueDate := editDueDate s |}).
Definition setLoading (v : bool) : M State unit :=
  set_state (fun s =>
      {| task := task s; loading := v; error := error s;
         isEditing := isEditing s; editTitle := editTitle s;
         editDescription := editDescription s;
         editPriority := editPriority s; editDueDate := editDueDate s |}).
Definition setError (v : jstring) : M State unit :=
  set_state (fun s =>
      {| task := task s; loading := loading s; error := v;
         isEditing := isEditing s; editTitle := editTitle s;
         editDescription := editDescription s;
         editPriority := editPriority s; editDueDate := editDueDate s |}).
Definition setIsEditing (v : bool) : M State unit :=
  set_state (fun s =>
      {| task := task s; loading := loading s; error := error s;
         isEditing := v; editTitle := editTitle s;
         editDescription := editDescription s;
         editPriority := editPriority s; editDueDate := editDueDate s |}).
Definition setEditTitle (v : jstring) : M State unit :=
  set_state (fun s =>
      {| task := task s; loading := loading s; error := error s;
         isEditing := isEditing s; editTitle := v;
         editDescription := editDescription s;
         editPriority := editPriority s; editDueDate := editDueDate s |}).
Definition setEditDescription (v : jstring) : M State unit :=
  set_state (fun s =>
      {| task := task s; loading := loading s; error := error s;
         isEditing := isEditing s; editTitle := editTitle s;
         editDescription := v; editPriority := editPriority s;
         editDueDate := editDueDate s |}).
Definition setEditPriority (v : Priority) : M State unit :=
  set_state (fun s =>
      {| task := task s; loading := loading s; error := error s;
         isEditing := isEditing s; editTitle := editTitle s;
         editDescription := editDescription s; editPriority := v;
         editDueDate := editDueDate s |}).
Definition setEditDueDate (v : jstring) : M State unit :=
  set_state (fun s =>
      {| task := task s; loading := loading s; error := error s;
         isEditing := isEditing s; editTitle := editTitle s;
         editDescription := editDescription s;
         editPriority := editPriority s; editDueDate := v |}).

(** The initial values passed to [useState]. *)
Definition initial : State :=
  {| task := None; loading := true; error := []; isEditing := false;
     editTitle := []; editDescription := []; editPriority := medium;
     editDueDate := [] |}.

Definition fetchTask : M State unit :=
  try_finally
    (try_catch
       (setLoading true;;
        response_data ← taskAPI.getById (parseInt taskId);
        setTask (Some response_data);;
        setEditTitle (Model.title response_data);;
        setEditDescription (Model.description response_data);;
        setEditPriority (Model.priority response_data);;
        setEditDueDate (due_date response_data))
       (fun _err => setError (lit "Failed to load task details")))
    (setLoading false).

Definition handleSaveEdit (s : State) : M State unit :=
  match task s with
  | None => mret tt
  | Some t =>
      setError [];;
      if falsy (trim (editTitle s)) then
        setError (lit "Title is required")
      else
        try_catch
          (taskAPI.update (id t)
             {| u_title := Some (editTitle s);
                u_description := Some (editDescription s);
                u_status := None;
                u_priority := Some (editPriority s);
                u_due_date := Some (editDueDate s) |};;
           setIsEditing false;;
           detached fetchTask)
          (fun err =>
             setError (or_else (response_data_error err) (lit "Failed to update task")))
  end.

Definition handleUpdateStatus (s : State) (newStatus : Status) : M State unit :=
  match task s with
  | None => mret tt
  | Some t =>
      try_catch
        (taskAPI.update (id t)
           {| u_title := None; u_description := None; u_status := Some newStatus;
              u_priority := None; u_due_date := None |};;
         detached fetchTask)
        (fun _err => setError (lit "Failed to update status"))
  end.

Definition handleDeleteTask (s : State) : M State unit :=
  ok ← confirm (lit "Are you sure you want to delete this task?");
  if negb ok then mret tt
  else
    match task s with
    | None => mret tt
    | Some t =>
        try_catch
          (taskAPI.delete (id t);;
           router_push (lit "/dashboard"))
          (fun _err => setError (lit "Failed to delete task"))
    end.

(** The inline error banner: [{error && (...)}]. *)
Definition error_banner (s : State) : option jstring :=
  if falsy (error s) then None else Some (error s).

(** The two effects of [TaskDetailPage]: the access guard and the load. *)
Definition guard_effect (user : option User) (authLoading : bool) : M State unit :=
  if negb authLoading && negb (defined user) then router_push (lit "/login")
  else mret tt.

Definition load_effect (user : option User) : M State unit :=
  match user with
  | Some _ => detached fetchTask
  | None => mret tt
  end.

(** What the component returns: the loading screen, the "Task not found"
    screen, or the task card with the error banner above it. *)
Inductive View :=
| LoadingScreen
| TaskNotFound
| Content (shown : Task) (banner : option jstring) (editing : bool).

Definition render (authLoading : bool) (s : State) : View :=
  if authLoading || loading s then LoadingScreen
  else match task s with
       | None => TaskNotFound
       | Some t => Content t (error_banner s) (isEditing s)
       end.
End Page.
End TaskDetail.

(** ** app/admin/page.tsx *)

Module Admin.
Section Page.
Context `{JsNumber}.

Inductive Tab := users_tab | tasks_tab.

(** The [useState] cells of [AdminPage]. *)
Record State := {
  users : list User;
  tasks : list AdminTask;
  activeTab : Tab;
  error : jstring;
  dataLoading : bool;
}.

Definition setUsers (v : list User) : M State unit :=
  set_state (fun s =>
      {| users := v; tasks := tasks s; activeTab := activeTab s;
         error := error s; dataLoading := dataLoading s |}).
Definition setTasks (v : list AdminTask) : M State unit :=
  set_state (fun s =>
      {| users := users s; tasks := v; activeTab := activeTab s;
         error := error s; dataLoading := dataLoading s |}).
Definition setActiveTab (v : Tab) : M State unit :=
  set_state (fun s =>
      {| users := users s; tasks := tasks s; activeTab := v;
         error := error s; dataLoading := dataLoading s |}).
Definition setError (v : jstring) : M State unit :=
  set_state (fun s =>
      {| users := users s; tasks := tasks s; activeTab := activeTab s;
         error := v; dataLoading := dataLoading s |}).
Definition setDataLoading (v : bool) : M State unit :=
  set_state (fun s =>
      {| users := users s; tasks := tasks s; activeTab := activeTab s;
         error := error s; dataLoading := v |}).

(** The initial values passed to [useState]. *)
Definition initial : State :=
  {| users := []; tasks := []; activeTab := users_tab; error := [];
     dataLoading := true |}.

Definition fetchData : M State unit :=
  try_finally
    (try_catch
       (setDataLoading true;;
        responses ← promise_all2 adminAPI.getAllUsers adminAPI.getAllTasks;
        setUsers (default [] (fst responses));;
        setTasks (default [] (snd responses)))
       (fun _err => setError (lit "Failed to load data")))
    (setDataLoading false).

Definition handlePromoteUser (userId : number) : M State unit :=
  ok ← confirm (lit "Promote this user to admin?");
  if negb ok then mret tt
  else
    try_catch
      (adminAPI.promoteUser userId;;
       detached fetchData)
      (fun _err => setError (lit "Failed to promote user")).

Definition handleDeleteTask (taskId : number) : M State unit :=
  ok ← confirm (lit "Delete this task?");
  if negb ok then mret tt
  else
    try_catch
      (adminAPI.deleteTask taskId;;
       detached fetchData)
      (fun _err => setError (lit "Failed to delete task")).

(** The two effects of [AdminPage]: the access guard and the load. *)
Definition is_admin (user : option User) : bool :=
  match user with
  | Some u => bool_decide (role u = lit "admin")
  | None => false
  end.

Definition guard_effect (user : option User) (loading : bool) : M State unit :=
  if negb loading && negb (is_admin user) then router_push (lit "/dashboard")
  else mret tt.

Definition load_effect (user : option User) : M State unit :=
  if is_admin user then detached fetchData else mret tt.

(** What the component returns. *)
Inductive View :=
| LoadingScreen
| Nothing
| Content (banner : option jstring) (tab : Tab).

Definition render (user : option User) (loading : bool) (s : State) : View :=
  if loading then LoadingScreen
  else if negb (is_admin user) then Nothing
  else Content (if falsy (error s) then None else Some (error s)) (activeTab s).

(** The owner shown on a task card:
    [users.find(u => u.id === task.user_id)?.name || 'Unknown'].
    [strict_eq] is [===] on numbers. *)
Variable strict_eq : number -> number -> bool.

Definition owner_name (s : State) (t : AdminTask) : jstring :=
  or_else
    (name <$> List.find (fun u => strict_eq (user_ident u) (at_user_id t)) (users s))
    (lit "Unknown").
End Page.
End Admin.

(** ** app/page.tsx *)

Module Home.
Section Page.
Context `{JsNumber}.

(** The effect of [Home], run with the session the auth context
    provides.  The page has no state of its own. *)
Definition effect (user : option User) (loading : bool) : M unit unit :=
  if negb loading then
    match user with
    | Some u =>
        if bool_decide (role u = lit "admin") then router_push (lit "/admin")
        else router_push (lit "/dashboard")
    | None => router_push (lit "/login")
    end
  else mret tt.
End Page.
End Home.

(** * Vocabulary of the properties *)

(** The backend's verdict on a mutation request made with [storage] as
    local storage, after the requests of [log]. *)
Definition mutation_verdict `{JsNumber} (env : Env) (log : list Request)
    (storage : gmap jstring jstring) (m : Method) (path : jstring) (body : Body) : Reply unit :=
  mutation_reply (backend env) log (request_config env storage m path body).

(** The update payload that carries the field [status] and nothing else. *)
Definition status_only `{JsNumber} (newStatus : Status) : UpdateTaskData :=
  {| u_title := None; u_description := None; u_status := Some newStatus;
     u_priority := None; u_due_date := None |}.

Module DashboardSpec.
Section Spec.
Context `{JsNumber}.
Import Dashboard.

Definition list_request (env : Env) (br : Browser) : Request :=
  request_config env (localStorage br) GET (lit "/tasks") NoBody.

Definition edit_payload (s : State) : UpdateTaskData :=
  {| u_title := Some (editTitle s); u_description := Some (editDescription s);
     u_status := None; u_priority := Some (editPriority s);
     u_due_date := Some (editDueDate s) |}.

Definition create_payload (s : State) : CreateTaskData :=
  {| c_title := title s; c_description := description s;
     c_priority := priority s; c_due_date := Some (dueDate s) |}.

(** After the mutation request [mutation], the handler has sent the list
    request and, when that resolves, holds exactly what it delivered;
    when it rejects, the list held before is still there. *)
Definition refetched (env : Env) (st : State) (br : Browser)
    (mutation : Request) (r : Run State unit) : Prop :=
  sent (browser r) = sent br ++ [mutation; list_request env br]
  /\ match tasks_reply (backend env) (sent br ++ [mutation]) (list_request env br) with
     | Resolved d => tasks (page r) = default [] d
     | Rejected _ => tasks (page r) = tasks st
     end.

(** The tasks a filter value lets through. *)
Definition passes (f : FilterStatus) (task : Task) : Prop :=
  match f with
  | all => True
  | having wanted => status task = wanted
  end.

#[global] Instance passes_dec f task : Decision (passes f task).
Proof. destruct f; simpl; apply _. Defined.

(** The create form, the filter and the edit modal are as before. *)
Definition forms_untouched (st st' : State) : Prop :=
  title st' = title st /\ description st' = description st
  /\ priority st' = priority st /\ dueDate st' = dueDate st
  /\ showCreateForm st' = showCreateForm st /\ filterStatus st' = filterStatus st
  /\ showEditModal st' = showEditModal st /\ editingTask st' = editingTask st
  /\ editTitle st' = editTitle st /\ editDescription st' = editDescription st
  /\ editPriority st' = editPriority st /\ editDueDate st' = editDueDate st.
End Spec.
End DashboardSpec.

Module TaskDetailSpec.
Section Spec.
Context `{JsNumber}.
Import TaskDetail.

Definition task_request (taskId : jstring) (env : Env) (br : Browser) : Request :=
  request_config env (localStorage br) GET
    (lit "/tasks/" ++ number_toString (parseInt taskId)) NoBody.

Definition edit_payload (s : State) : UpdateTaskData :=
  {| u_title := Some (editTitle s); u_description := Some (editDescription s);
     u_status := None; u_priority := Some (editPriority s);
     u_due_date := Some (editDueDate s) |}.

(** After the mutation request [mutation], the handler has requested the
    task again and, when that resolves, holds the delivered task and has
    reset the edit buffer from it; when it rejects, the task held before
    is still there. *)
Definition reloaded (taskId : jstring) (env : Env) (st : State) (br : Browser)
    (mutation : Request) (r : Run State unit) : Prop :=
  sent (browser r) = sent br ++ [mutation; task_request taskId env br]
  /\ match task_reply (backend env) (sent br ++ [mutation]) (task_request taskId env br) with
     | Resolved t =>
         task (page r) = Some t
         /\ editTitle (page r) = Model.title t
         /\ editDescription (page r) = Model.description t
         /\ editPriority (page r) = Model.priority t
         /\ editDueDate (page r) = due_date t
     | Rejected _ => task (page r) = task st
     end.
End Spec.
End TaskDetailSpec.

Module AdminSpec.
Section Spec.
Context `{JsNumber}.
Import Admin.

Definition users_request (env : Env) (br : Browser) : Request :=
  request_config env (localStorage br) GET (lit "/admin/users") NoBody.
Definition tasks_request (env : Env) (br : Browser) : Request :=
  request_config env (localStorage br) GET (lit "/admin/tasks") NoBody.

(** After the mutation request [mutation], the handler has requested
    both collections and, when both resolve, holds exactly what they
    delivered; otherwise the collections held before are still there. *)
Definition refreshed (env : Env) (st : State) (br : Browser)
    (mutation : Request) (r : Run State unit) : Prop :=
  sent (browser r) =
    sent br ++ [mutation; users_request env br; tasks_request env br]
  /\ match admin_users_reply (backend env) (sent br ++ [mutation]) (users_request env br),
           admin_tasks_reply (backend env)
             (sent br ++ [mutation; users_request env br]) (tasks_request env br) with
     | Resolved us, Resolved ts =>
         users (page r) = default [] us /\ tasks (page r) = default [] ts
     | _, _ => users (page r) = users st /\ tasks (page r) = tasks st
     end.
End Spec.
End AdminSpec.

(** A handler run that completes normally, leaves the stored token alone
    and does not navigate to the login page. *)
Definition keeps_session `{JsNumber} {S A : Type} (br : Browser) (r : Run S A) : Prop :=
  (exists a, completion r = Normal a)
  /\ localStorage (browser r) = localStorage br
  /\ exists more, pushed (browser r) = pushed br ++ more /\ lit "/login" ∉ more.

(** The requests of a log that change data on the backend. *)
Definition mutations `{JsNumber} (log : list Request) : list Request :=
  filter (fun q => method q <> GET) log.

(** A call sends exactly one request, with the given method and path, to
    the configured base URL. *)
Definition issues `{JsNumber} {S A : Type} (call : M S A) (m : Method) (path : jstring) : Prop :=
  forall (env : Env) (st : S) (br : Browser),
    exists q, sent (browser (call env st br)) = sent br ++ [q]
              /\ method q = m /\ url q = path /\ baseURL q = API_URL env.

(** ** Concrete inputs

    A small model of the numbers the pages meet (a natural number, or NaN
    when [parseInt] finds no digit), two backends and a browser holding a
    token, on which the handlers can be run. *)

Module Sample.

Fixpoint leading_digits (s : jstring) (acc : option N) : option N :=
  match s with
  | c :: s' =>
      if (48 <=? c) && (c <=? 57)
      then leading_digits s' (Some (10 * default 0 acc + (c - 48)))
      else acc
  | [] => acc
  end.

Definition naturals : JsNumber :=
  {| number := option N;
     number_toString := fun n =>
       match n with
       | Some k => lit (NilZero.string_of_uint (N.to_uint k))
       | None => lit "NaN"
       end;
     parseInt := fun s => leading_digits (trimStart s) None |}.

#[local] Existing Instance naturals.

Definition milk : Task :=
  {| id := Some 7; user_id := Some 1; title := lit "Buy milk";
     description := []; status := pending; priority := low;
     due_date := []; created_at := lit "2024-01-01T00:00:00Z" |}.

Definition bread : Task :=
  {| id := Some 8; user_id := Some 1; title := lit "Bake bread";
     description := []; status := completed; priority := high;
     due_date := []; created_at := lit "2024-01-02T00:00:00Z" |}.

Definition unauthorized : AxiosError :=
  {| response := Some {| http_status := 401;
                         response_data := Some {| error_text := lit "token expired" |} |} |}.

(** A backend that accepts every request. *)
Definition accepting : Backend :=
  {| auth_reply := fun _ _ => Resolved tt;
     mutation_reply := fun _ _ => Resolved tt;
     tasks_reply := fun _ _ => Resolved (Some [milk; bread]);
     task_reply := fun _ _ => Resolved milk;
     admin_users_reply := fun _ _ => Resolved (Some []);
     admin_tasks_reply := fun _ _ => Resolved None |}.

(** A backend that rejects every request with 401. *)
Definition expired : Backend :=
  {| auth_reply := fun _ _ => Rejected unauthorized;
     mutation_reply := fun _ _ => Rejected unauthorized;
     tasks_reply := fun _ _ => Rejected unauthorized;
     task_reply := fun _ _ => Rejected unauthorized;
     admin_users_reply := fun _ _ => Rejected unauthorized;
     admin_tasks_reply := fun _ _ => Rejected unauthorized |}.

Definition env_accepting : Env :=
  {| NEXT_PUBLIC_API_URL := None; backend := accepting; window_confirm := fun _ => true |}.

Definition env_expired : Env :=
  {| NEXT_PUBLIC_API_URL := None; backend := expired; window_confirm := fun _ => true |}.

Definition env_declining : Env :=
  {| NEXT_PUBLIC_API_URL := None; backend := accepting; window_confirm := fun _ => false |}.

Definition logged_in : Browser :=
  {| localStorage := {[ lit "token" := lit "abc" ]};
     sent := []; pushed := []; dialogs := [] |}.

(** The dashboard with a draft whose title is two spaces. *)
Definition blank_draft : Dashboard.State :=
  {| Dashboard.tasks := [milk]; Dashboard.title := lit "  ";
     Dashboard.description := lit "x"; Dashboard.priority := medium;
     Dashboard.dueDate := []; Dashboard.error := [];
     Dashboard.tasksLoading := false; Dashboard.showCreateForm := true;
     Dashboard.filterStatus := all; Dashboard.showEditModal := false;
     Dashboard.editingTask := None; Dashboard.editTitle := [];
     Dashboard.editDescription := []; Dashboard.editPriority := medium;
     Dashboard.editDueDate := [] |}.

(** The dashboard with the edit modal open on [milk]. *)
Definition editing_milk : Dashboard.State :=
  {| Dashboard.tasks := [milk]; Dashboard.title := [];
     Dashboard.description := []; Dashboard.priority := medium;
     Dashboard.dueDate := []; Dashboard.error := [];
     Dashboard.tasksLoading := false; Dashboard.showCreateForm := false;
     Dashboard.filterStatus := all; Dashboard.showEditModal := true;
     Dashboard.editingTask := Some milk; Dashboard.editTitle := lit "Buy oat milk";
     Dashboard.editDescription := []; Dashboard.editPriority := high;
     Dashboard.editDueDate := [] |}.

(** The detail page showing [milk]. *)
Definition viewing_milk : TaskDetail.State :=
  {| TaskDetail.task := Some milk; TaskDetail.loading := false;
     TaskDetail.error := []; TaskDetail.isEditing := false;
     TaskDetail.editTitle := lit "Buy milk"; TaskDetail.editDescription := [];
     TaskDetail.editPriority := low; TaskDetail.editDueDate := [] |}.

Definition ann : User :=
  {| user_ident := Some 1; email := lit "ann@example.org"; name := lit "Ann";
     role := lit "admin" |}.

(** The dashboard holding two tasks, filtered on 'completed'. *)
Definition completed_only : Dashboard.State :=
  {| Dashboard.tasks := [milk; bread]; Dashboard.title := [];
     Dashboard.description := []; Dashboard.priority := medium;
     Dashboard.dueDate := []; Dashboard.error := lit "Failed to load tasks";
     Dashboard.tasksLoading := false; Dashboard.showCreateForm := false;
     Dashboard.filterStatus := having completed; Dashboard.showEditModal := false;
     Dashboard.editingTask := None; Dashboard.editTitle := [];
     Dashboard.editDescription := []; Dashboard.editPriority := medium;
     Dashboard.editDueDate := [] |}.

(** The dashboard with a draft ready to be created. *)
Definition draft : Dashboard.State :=
  {| Dashboard.tasks := [milk]; Dashboard.title := lit "Call Ann";
     Dashboard.description := lit "about the bread"; Dashboard.priority := high;
     Dashboard.dueDate := lit "2024-02-01"; Dashboard.error := [];
     Dashboard.tasksLoading := false; Dashboard.showCreateForm := true;
     Dashboard.filterStatus := all; Dashboard.showEditModal := false;
     Dashboard.editingTask := None; Dashboard.editTitle := [];
     Dashboard.editDescription := []; Dashboard.editPriority := medium;
     Dashboard.editDueDate := [] |}.

(** The detail page in edit mode, with a title typed but not saved. *)
Definition retitling_milk : TaskDetail.State :=
  {| TaskDetail.task := Some milk; TaskDetail.loading := false;
     TaskDetail.error := []; TaskDetail.isEditing := true;
     TaskDetail.editTitle := lit "Buy oat milk"; TaskDetail.editDescription := [];
     TaskDetail.editPriority := low; TaskDetail.editDueDate := [] |}.

Definition bob : User :=
  {| user_ident := Some 2; email := lit "bob@example.org"; name := lit "Bob";
     role := lit "user" |}.

(** [===] on the sample numbers: NaN is equal to nothing. *)
Definition strict_eq (a b : option N) : bool :=
  match a, b with
  | Some x, Some y => x =? y
  | _, _ => false
  end.

Definition chore : AdminTask :=
  {| at_id := Some 9; at_user_id := Some 2; at_title := lit "Sweep";
     at_description := []; at_status := lit "pending"; at_priority := lit "low" |}.

Definition orphan : AdminTask :=
  {| at_id := Some 10; at_user_id := Some 5; at_title := lit "Lost";
     at_description := []; at_status := lit "pending"; at_priority := lit "low" |}.

Definition panel : Admin.State :=
  {| Admin.users := [ann; bob]; Admin.tasks := [chore; orphan];
     Admin.activeTab := Admin.tasks_tab; Admin.error := [];
     Admin.dataLoading := false |}.

(** A transport failure: no response at all. *)
Definition network_error : AxiosError := {| response := None |}.

(** A backend that accepts every mutation while every read fails. *)
Definition reads_fail : Backend :=
  {| auth_reply := fun _ _ => Resolved tt;
     mutation_reply := fun _ _ => Resolved tt;
     tasks_reply := fun _ _ => Rejected network_error;
     task_reply := fun _ _ => Rejected network_error;
     admin_users_reply := fun _ _ => Rejected network_error;
     admin_tasks_reply := fun _ _ => Rejected network_error |}.

Definition env_reads_fail : Env :=
  {| NEXT_PUBLIC_API_URL := None; backend := reads_fail; window_confirm := fun _ => true |}.

End Sample.

(** * Properties *)

#[local] Arguments lit : simpl never.
#[local] Arguments request_config : simpl never.
#[local] Arguments trim : simpl never.
#[local] Arguments mutation_verdict : simpl never.

(** ** Blank strings and [trim] *)

Lemma trimStart_nil_iff s : trimStart s = [] <-> blank s.
Proof.
  unfold blank. induction s as [|c s IH]; simpl.
  - split; [constructor | reflexivity].
  - destruct (is_white_space c) eqn:Hc.
    + rewrite IH. split.
      * intros Hs. by constructor.
      * by inversion 1.
    + split; [discriminate |].
      inversion 1; congruence.
Qed.

Lemma trimStart_blank_tail s :
  blank (trimStart s) -> trimStart s = [].
Proof.
  induction s as [|c s IH]; simpl; [done |].
  destruct (is_white_space c) eqn:Hc; [done |].
  inversion 1; congruence.
Qed.

Lemma trim_falsy_iff s : falsy (trim s) = true <-> blank s.
Proof.
  assert (Hf : forall t : jstring, falsy t = true <-> t = []).
  { intros [|? ?]; simpl; split; congruence. }
  rewrite Hf. unfold trim, trimEnd.
  split.
  - intros Hr. apply trimStart_nil_iff.
    assert (Hn : trimStart (rev (trimStart s)) = []).
    { apply (f_equal (@rev N)) in Hr. by rewrite rev_involutive in Hr. }
    apply trimStart_nil_iff in Hn.
    apply trimStart_blank_tail.
    unfold blank in *. apply Forall_rev in Hn. by rewrite rev_involutive in Hn.
  - intros Hb. apply trimStart_nil_iff in Hb. by rewrite Hb.
Qed.


Lemma falsy_false_iff (s : jstring) : falsy s = false <-> s <> [].
Proof. destruct s; simpl; split; congruence. Qed.

Lemma trim_not_blank s : ~ blank s -> falsy (trim s) = false.
Proof.
  intros Hn. destruct (falsy (trim s)) eqn:Hf; [| done].
  by apply trim_falsy_iff in Hf.
Qed.

(** ** Running a handler

    [run] evaluates the monad, the setters and the handlers by value and
    leaves strings, request configurations and the backend's answers
    as they are.  It is used on states and browsers given field by field. *)

Ltac run :=
  cbv beta iota zeta delta
    [mbind mret M_bind M_ret bind pure try_catch try_finally detached
     promise_all2 set_state router_push confirm api_call
     completion page browser localStorage sent pushed dialogs
     default fst snd negb andb orb defined
     Dashboard.guard_effect Dashboard.load_effect Dashboard.cancelEdit
     TaskDetail.guard_effect TaskDetail.load_effect
     Admin.guard_effect Admin.load_effect
     Dashboard.render TaskDetail.render Admin.render
     Dashboard.error_banner TaskDetail.error_banner
     taskAPI.create taskAPI.getAll taskAPI.getById taskAPI.update taskAPI.delete
     adminAPI.getAllUsers adminAPI.getAllTasks adminAPI.promoteUser
     adminAPI.deleteTask
     Dashboard.tasks Dashboard.title Dashboard.description Dashboard.priority
     Dashboard.dueDate Dashboard.error Dashboard.tasksLoading
     Dashboard.showCreateForm Dashboard.filterStatus Dashboard.showEditModal
     Dashboard.editingTask Dashboard.editTitle Dashboard.editDescription
     Dashboard.editPriority Dashboard.editDueDate
     Dashboard.setTasks Dashboard.setTitle Dashboard.setDescription
     Dashboard.setPriority Dashboard.setDueDate Dashboard.setError
     Dashboard.setTasksLoading Dashboard.setShowCreateForm
     Dashboard.setFilterStatus Dashboard.setShowEditModal
     Dashboard.setEditingTask Dashboard.setEditTitle
     Dashboard.setEditDescription Dashboard.setEditPriority
     Dashboard.setEditDueDate
     Dashboard.fetchTasks Dashboard.handleCreateTask Dashboard.handleOpenEdit
     Dashboard.handleSaveEdit Dashboard.handleUpdateStatus
     Dashboard.handleDeleteTask
     TaskDetail.task TaskDetail.loading TaskDetail.error TaskDetail.isEditing
     TaskDetail.editTitle TaskDetail.editDescription TaskDetail.editPriority
     TaskDetail.editDueDate
     TaskDetail.setTask TaskDetail.setLoading TaskDetail.setError
     TaskDetail.setIsEditing TaskDetail.setEditTitle
     TaskDetail.setEditDescription TaskDetail.setEditPriority
     TaskDetail.setEditDueDate
     TaskDetail.fetchTask TaskDetail.handleSaveEdit
     TaskDetail.handleUpdateStatus TaskDetail.handleDeleteTask
     Admin.users Admin.tasks Admin.activeTab Admin.error Admin.dataLoading
     Admin.setUsers Admin.setTasks Admin.setActiveTab Admin.setError
     Admin.setDataLoading
     Admin.fetchData Admin.handlePromoteUser Admin.handleDeleteTask
     Home.effect
     mutation_verdict status_only
     DashboardSpec.list_request DashboardSpec.edit_payload
     DashboardSpec.create_payload DashboardSpec.refetched
     DashboardSpec.forms_untouched
     TaskDetailSpec.task_request TaskDetailSpec.edit_payload
     TaskDetailSpec.reloaded
     AdminSpec.users_request AdminSpec.tasks_request AdminSpec.refreshed].

(** Hypotheses are brought to the same form. *)
Ltac run_in H :=
  cbv beta iota zeta delta
    [localStorage sent pushed dialogs
     Dashboard.tasks Dashboard.title Dashboard.description Dashboard.priority
     Dashboard.dueDate Dashboard.error Dashboard.tasksLoading
     Dashboard.showCreateForm Dashboard.filterStatus Dashboard.showEditModal
     Dashboard.editingTask Dashboard.editTitle Dashboard.editDescription
     Dashboard.editPriority Dashboard.editDueDate
     TaskDetail.task TaskDetail.loading TaskDetail.error TaskDetail.isEditing
     TaskDetail.editTitle TaskDetail.editDescription TaskDetail.editPriority
     TaskDetail.editDueDate
     mutation_verdict status_only
     DashboardSpec.edit_payload DashboardSpec.create_payload
     TaskDetailSpec.edit_payload
     DashboardSpec.list_request TaskDetailSpec.task_request
     AdminSpec.users_request AdminSpec.tasks_request] in H.

(** Logs are compared as right-nested appends. *)
Ltac flatten := rewrite <- ?app_assoc; cbn [app].

Ltac settle := run; repeat split; flatten; reflexivity.

(** Case analysis on everything a run depends on: the guards and the
    backend's answers, innermost first. *)
Ltac crunch :=
  run;
  repeat (match goal with
          | |- context [match ?x with _ => _ end] =>
              lazymatch x with
              | context [match _ with _ => _ end] => fail
              | _ => destruct x
              end
          end; run).

Lemma no_login_nil : lit "/login" ∉ ([] : list jstring).
Proof. apply not_elem_of_nil. Qed.

Lemma no_login_dashboard : lit "/login" ∉ [lit "/dashboard"].
Proof. intros Hin. apply list_elem_of_singleton in Hin. discriminate Hin. Qed.

Ltac session_kept :=
  unfold keeps_session; repeat apply conj; crunch;
  first [ reflexivity
        | eexists; reflexivity
        | exists []; split; [by rewrite app_nil_r | apply no_login_nil]
        | exists [lit "/dashboard"]; split; [reflexivity | apply no_login_dashboard] ].

Section DashboardProperties.
Context `{JsNumber}.
Import Dashboard DashboardSpec.

Lemma dashboard_create_blank (env : Env) (s st : State) (br : Browser) :
  blank (title s) ->
  let r := handleCreateTask s env st br in
  completion r = Normal tt
  /\ browser r = br
  /\ page r = page (setError (lit "Title is required") env st br).
Proof.
  intros Hblank. apply trim_falsy_iff in Hblank.
  destruct s, st, br. run_in Hblank. run. rewrite Hblank. settle.
Qed.

(** What [fetchTasks] does, whatever the backend answers. *)
Lemma fetchTasks_run (env : Env) (st : State) (br : Browser) :
  let q := request_config env (localStorage br) GET (lit "/tasks") NoBody in
  let r := fetchTasks env st br in
  completion r = Normal tt
  /\ sent (browser r) = sent br ++ [q]
  /\ localStorage (browser r) = localStorage br
  /\ pushed (browser r) = pushed br
  /\ dialogs (browser r) = dialogs br
  /\ filterStatus (page r) = filterStatus st
  /\ match tasks_reply (backend env) (sent br) q with
     | Resolved d => tasks (page r) = default [] d /\ error (page r) = error st
     | Rejected _ =>
         tasks (page r) = tasks st /\ error (page r) = lit "Failed to load tasks"
     end.
Proof.
  destruct st, br. run.
  destruct (tasks_reply _ _ _); settle.
Qed.

Lemma dashboard_create_refetches (env : Env) (s st : State) (br : Browser) :
  ~ blank (title s) ->
  mutation_verdict env (sent br) (localStorage br) POST (lit "/tasks")
    (CreateBody (create_payload s)) = Resolved tt ->
  refetched env st br
    (request_config env (localStorage br) POST (lit "/tasks") (CreateBody (create_payload s)))
    (handleCreateTask s env st br).
Proof.
  intros Hnb Hok. apply trim_not_blank in Hnb.
  destruct s, st, br. run_in Hnb. run_in Hok. run. rewrite Hnb, Hok.
  destruct (tasks_reply _ _ _); settle.
Qed.

Lemma dashboard_save_ok (env : Env) (s st : State) (br : Browser) (t : Task) :
  editingTask s = Some t ->
  ~ blank (editTitle s) ->
  let path := lit "/tasks/" ++ number_toString (id t) in
  mutation_verdict env (sent br) (localStorage br) PUT path
    (UpdateBody (edit_payload s)) = Resolved tt ->
  let r := handleSaveEdit s env st br in
  completion r = Normal tt
  /\ showEditModal (page r) = false
  /\ editingTask (page r) = None
  /\ refetched env st br
       (request_config env (localStorage br) PUT path (UpdateBody (edit_payload s))) r.
Proof.
  intros Ht Hnb path Hok. apply trim_not_blank in Hnb. subst path.
  destruct s, st, br. run_in Ht. run_in Hnb. run_in Hok. subst.
  run. rewrite Hnb, Hok.
  destruct (tasks_reply _ _ _); settle.
Qed.




Lemma dashboard_status_run (env : Env) (st : State) (br : Browser)
    (taskId : number) (newStatus : Status) :
  let path := lit "/tasks/" ++ number_toString taskId in
  let q := request_config env (localStorage br) PUT path (UpdateBody (status_only newStatus)) in
  let r := handleUpdateStatus taskId newStatus env st br in
  completion r = Normal tt
  /\ match mutation_verdict env (sent br) (localStorage br) PUT path
             (UpdateBody (status_only newStatus)) with
     | Resolved _ => refetched env st br q r
     | Rejected _ =>
         sent (browser r) = sent br ++ [q]
         /\ page r = page (setError (lit "Failed to update task status") env st br)
     end.
Proof.
  destruct st, br. run.
  destruct (mutation_reply _ _ _) as [[]|err].
  - destruct (tasks_reply _ _ _); settle.
  - settle.
Qed.

Lemma dashboard_delete_confirmed (env : Env) (st : State) (br : Browser) (taskId : number) :
  window_confirm env (lit "Are you sure you want to delete this task?") = true ->
  let path := lit "/tasks/" ++ number_toString taskId in
  mutation_verdict env (sent br) (localStorage br) DELETE path NoBody = Resolved tt ->
  refetched env st br (request_config env (localStorage br) DELETE path NoBody)
    (handleDeleteTask taskId env st br).
Proof.
  intros Hyes path Hok. subst path.
  destruct st, br. run_in Hok. run. rewrite Hyes, Hok.
  destruct (tasks_reply _ _ _); settle.
Qed.

Lemma dashboard_delete_declined (env : Env) (st : State) (br : Browser) (taskId : number) :
  window_confirm env (lit "Are you sure you want to delete this task?") = false ->
  let r := handleDeleteTask taskId env st br in
  completion r = Normal tt
  /\ page r = st
  /\ sent (browser r) = sent br
  /\ localStorage (browser r) = localStorage br
  /\ pushed (browser r) = pushed br.
Proof.
  intros Hno. destruct st, br. run. rewrite Hno. settle.
Qed.

(** No dashboard handler ends in an exception, touches the stored token or
    leads to the login page, whatever the backend answers. *)
Lemma dashboard_handlers_keep_session (env : Env) (s st : State) (br : Browser)
    (taskId : number) (newStatus : Status) :
  keeps_session br (fetchTasks env st br)
  /\ keeps_session br (handleCreateTask s env st br)
  /\ keeps_session br (handleSaveEdit s env st br)
  /\ keeps_session br (handleUpdateStatus taskId newStatus env st br)
  /\ keeps_session br (handleDeleteTask taskId env st br).
Proof. destruct s, st, br. session_kept. Qed.
End DashboardProperties.

Section TaskDetailProperties.
Context `{JsNumber}.
Import TaskDetail TaskDetailSpec.

(** What [fetchTask] does, whatever the backend answers. *)
Lemma fetchTask_run (taskId : jstring) (env : Env) (st : State) (br : Browser) :
  let q := task_request taskId env br in
  let r := fetchTask taskId env st br in
  completion r = Normal tt
  /\ sent (browser r) = sent br ++ [q]
  /\ localStorage (browser r) = localStorage br
  /\ pushed (browser r) = pushed br
  /\ dialogs (browser r) = dialogs br
  /\ match task_reply (backend env) (sent br) q with
     | Resolved t => task (page r) = Some t /\ error (page r) = error st
     | Rejected _ =>
         task (page r) = task st
         /\ error (page r) = lit "Failed to load task details"
     end.
Proof.
  destruct st, br. run.
  destruct (task_reply _ _ _); settle.
Qed.

Lemma detail_save_ok (taskId : jstring) (env : Env) (s st : State) (br : Browser) (t : Task) :
  task s = Some t ->
  ~ blank (editTitle s) ->
  let path := lit "/tasks/" ++ number_toString (id t) in
  mutation_verdict env (sent br) (localStorage br) PUT path
    (UpdateBody (edit_payload s)) = Resolved tt ->
  let r := handleSaveEdit taskId s env st br in
  completion r = Normal tt
  /\ isEditing (page r) = false
  /\ reloaded taskId env st br
       (request_config env (localStorage br) PUT path (UpdateBody (edit_payload s))) r.
Proof.
  intros Ht Hnb path Hok. apply trim_not_blank in Hnb. subst path.
  destruct s, st, br. run_in Ht. run_in Hnb. run_in Hok. subst.
  run. rewrite Hnb, Hok.
  destruct (task_reply _ _ _); settle.
Qed.




Lemma detail_status_run (taskId : jstring) (env : Env) (s st : State) (br : Browser)
    (t : Task) (newStatus : Status) :
  task s = Some t ->
  let path := lit "/tasks/" ++ number_toString (id t) in
  let q := request_config env (localStorage br) PUT path (UpdateBody (status_only newStatus)) in
  let r := handleUpdateStatus taskId s newStatus env st br in
  completion r = Normal tt
  /\ match mutation_verdict env (sent br) (localStorage br) PUT path
             (UpdateBody (status_only newStatus)) with
     | Resolved _ => reloaded taskId env st br q r
     | Rejected _ =>
         sent (browser r) = sent br ++ [q]
         /\ page r = page (setError (lit "Failed to update status") env st br)
     end.
Proof.
  intros Ht. destruct s, st, br. run_in Ht. subst. run.
  destruct (mutation_reply _ _ _) as [[]|err].
  - destruct (task_reply _ _ _); settle.
  - settle.
Qed.

(** A confirmed, successful delete on the detail page sends the DELETE
    request only and then navigates to the dashboard. *)
Lemma detail_delete_confirmed (env : Env) (s st : State) (br : Browser) (t : Task) :
  task s = Some t ->
  window_confirm env (lit "Are you sure you want to delete this task?") = true ->
  let path := lit "/tasks/" ++ number_toString (id t) in
  mutation_verdict env (sent br) (localStorage br) DELETE path NoBody = Resolved tt ->
  let r := handleDeleteTask s env st br in
  completion r = Normal tt
  /\ sent (browser r) = sent br ++ [request_config env (localStorage br) DELETE path NoBody]
  /\ pushed (browser r) = pushed br ++ [lit "/dashboard"]
  /\ page r = st.
Proof.
  intros Ht Hyes path Hok. subst path.
  destruct s, st, br. run_in Ht. run_in Hok. subst.
  run. rewrite Hyes, Hok. settle.
Qed.

Lemma detail_delete_declined (env : Env) (s st : State) (br : Browser) :
  window_confirm env (lit "Are you sure you want to delete this task?") = false ->
  let r := handleDeleteTask s env st br in
  completion r = Normal tt
  /\ page r = st
  /\ sent (browser r) = sent br
  /\ localStorage (browser r) = localStorage br
  /\ pushed (browser r) = pushed br.
Proof.
  intros Hno. destruct s, st, br. run. rewrite Hno. settle.
Qed.

Lemma detail_handlers_keep_session (taskId : jstring) (env : Env) (s st : State)
    (br : Browser) (newStatus : Status) :
  keeps_session br (fetchTask taskId env st br)
  /\ keeps_session br (handleSaveEdit taskId s env st br)
  /\ keeps_session br (handleUpdateStatus taskId s newStatus env st br)
  /\ keeps_session br (handleDeleteTask s env st br).
Proof. destruct s, st, br. session_kept. Qed.
End TaskDetailProperties.

Section AdminProperties.
Context `{JsNumber}.
Import Admin AdminSpec.

(** What [fetchData] does, whatever the backend answers. *)
Lemma fetchData_run (env : Env) (st : State) (br : Browser) :
  let r := fetchData env st br in
  completion r = Normal tt
  /\ sent (browser r) = sent br ++ [users_request env br; tasks_request env br]
  /\ localStorage (browser r) = localStorage br
  /\ pushed (browser r) = pushed br
  /\ dialogs (browser r) = dialogs br
  /\ match admin_users_reply (backend env) (sent br) (users_request env br),
           admin_tasks_reply (backend env) (sent br ++ [users_request env br])
             (tasks_request env br) with
     | Resolved us, Resolved ts =>
         users (page r) = default [] us /\ tasks (page r) = default [] ts
         /\ error (page r) = error st
     | _, _ =>
         users (page r) = users st /\ tasks (page r) = tasks st
         /\ error (page r) = lit "Failed to load data"
     end.
Proof.
  destruct st, br. run.
  destruct (admin_users_reply _ _ _); [destruct (admin_tasks_reply _ _ _) |]; settle.
Qed.

Lemma admin_promote_confirmed (env : Env) (st : State) (br : Browser) (userId : number) :
  window_confirm env (lit "Promote this user to admin?") = true ->
  let path := lit "/admin/promote/" ++ number_toString userId in
  mutation_verdict env (sent br) (localStorage br) POST path NoBody = Resolved tt ->
  refreshed env st br (request_config env (localStorage br) POST path NoBody)
    (handlePromoteUser userId env st br).
Proof.
  intros Hyes path Hok. subst path.
  destruct st, br. run_in Hok. run. rewrite Hyes, Hok. flatten.
  destruct (admin_users_reply _ _ _); [destruct (admin_tasks_reply _ _ _) |]; settle.
Qed.

Lemma admin_delete_confirmed (env : Env) (st : State) (br : Browser) (taskId : number) :
  window_confirm env (lit "Delete this task?") = true ->
  let path := lit "/admin/tasks/" ++ number_toString taskId in
  mutation_verdict env (sent br) (localStorage br) DELETE path NoBody = Resolved tt ->
  refreshed env st br (request_config env (localStorage br) DELETE path NoBody)
    (handleDeleteTask taskId env st br).
Proof.
  intros Hyes path Hok. subst path.
  destruct st, br. run_in Hok. run. rewrite Hyes, Hok. flatten.
  destruct (admin_users_reply _ _ _); [destruct (admin_tasks_reply _ _ _) |]; settle.
Qed.

Lemma admin_promote_declined (env : Env) (st : State) (br : Browser) (userId : number) :
  window_confirm env (lit "Promote this user to admin?") = false ->
  let r := handlePromoteUser userId env st br in
  completion r = Normal tt
  /\ page r = st
  /\ sent (browser r) = sent br
  /\ localStorage (browser r) = localStorage br
  /\ pushed (browser r) = pushed br.
Proof.
  intros Hno. destruct st, br. run. rewrite Hno. settle.
Qed.

Lemma admin_delete_declined (env : Env) (st : State) (br : Browser) (taskId : number) :
  window_confirm env (lit "Delete this task?") = false ->
  let r := handleDeleteTask taskId env st br in
  completion r = Normal tt
  /\ page r = st
  /\ sent (browser r) = sent br
  /\ localStorage (browser r) = localStorage br
  /\ pushed (browser r) = pushed br.
Proof.
  intros Hno. destruct st, br. run. rewrite Hno. settle.
Qed.

Lemma admin_handlers_keep_session (env : Env) (st : State) (br : Browser)
    (userId taskId : number) :
  keeps_session br (fetchData env st br)
  /\ keeps_session br (handlePromoteUser userId env st br)
  /\ keeps_session br (handleDeleteTask taskId env st br).
Proof. destruct st, br. session_kept. Qed.
End AdminProperties.

(** ** The request interceptor and the API objects *)

Section AxiosProperties.
Context `{JsNumber}.

Lemma interceptor_frame (storage : gmap jstring jstring) (config : Request) :
  let q := interceptor storage config in
  baseURL q = baseURL config /\ method q = method config
  /\ url q = url config /\ data q = data config.
Proof.
  unfold interceptor. destruct (storage !! lit "token") as [token|]; [| done].
  destruct (falsy token); done.
Qed.

Lemma request_config_frame (env : Env) (storage : gmap jstring jstring)
    (m : Method) (path : jstring) (body : Body) :
  let q := request_config env storage m path body in
  baseURL q = API_URL env /\ method q = m /\ url q = path /\ data q = body.
Proof. unfold request_config. apply interceptor_frame. Qed.

Lemma request_config_authorization (env : Env) (storage : gmap jstring jstring)
    (m : Method) (path : jstring) (body : Body) :
  Authorization (request_config env storage m path body) =
    match storage !! lit "token" with
    | Some token => if falsy token then None else Some (lit "Bearer " ++ token)
    | None => None
    end.
Proof.
  unfold request_config, interceptor.
  destruct (storage !! lit "token") as [token|]; [| done].
  destruct (falsy token); done.
Qed.

Lemma api_call_issues {S A} (reply : Backend -> Oracle A)
    (m : Method) (path : jstring) (body : Body) :
  issues (api_call (S := S) reply m path body) m path.
Proof.
  intros env st br. eexists. split; [reflexivity |].
  destruct (request_config_frame env (localStorage br) m path body) as (? & ? & ? & ?).
  done.
Qed.
End AxiosProperties.

(** ** The client-side contract *)

Section Contract.
Context `{JsNumber}.

(** C1 (as the code has it).  Whatever the backend answers (a 401
    included), none of the data-loading and mutation handlers of the
    dashboard, the detail page and the admin page ends in an exception,
    removes the stored token or navigates to the login page.  When the
    backend rejects a data-loading call the page's error message is set:
    the dashboard and the admin page render it as their inline banner; the
    detail page renders it as the banner above the task it already holds,
    and renders the "Task not found" screen, which has no banner, when it
    holds none. *)
Theorem rejected_call_keeps_session_and_shows_error :
  (forall (env : Env) (s st : Dashboard.State) (br : Browser)
      (taskId : number) (newStatus : Status),
      keeps_session br (Dashboard.fetchTasks env st br)
      /\ keeps_session br (Dashboard.handleCreateTask s env st br)
      /\ keeps_session br (Dashboard.handleSaveEdit s env st br)
      /\ keeps_session br (Dashboard.handleUpdateStatus taskId newStatus env st br)
      /\ keeps_session br (Dashboard.handleDeleteTask taskId env st br))
  /\ (forall (taskId : jstring) (env : Env) (s st : TaskDetail.State) (br : Browser)
        (newStatus : Status),
      keeps_session br (TaskDetail.fetchTask taskId env st br)
      /\ keeps_session br (TaskDetail.handleSaveEdit taskId s env st br)
      /\ keeps_session br (TaskDetail.handleUpdateStatus taskId s newStatus env st br)
      /\ keeps_session br (TaskDetail.handleDeleteTask s env st br))
  /\ (forall (env : Env) (st : Admin.State) (br : Browser) (userId taskId : number),
      keeps_session br (Admin.fetchData env st br)
      /\ keeps_session br (Admin.handlePromoteUser userId env st br)
      /\ keeps_session br (Admin.handleDeleteTask taskId env st br))
  /\ (forall (env : Env) (st : Dashboard.State) (br : Browser) (err : AxiosError)
        (u : User),
      tasks_reply (backend env) (sent br) (DashboardSpec.list_request env br)
        = Rejected err ->
      let r := Dashboard.fetchTasks env st br in
      Dashboard.error (page r) = lit "Failed to load tasks"
      /\ exists admin_link area modal,
           Dashboard.render (Some u) false (page r)
             = Dashboard.Content admin_link (Some (lit "Failed to load tasks")) area modal)
  /\ (forall (taskId : jstring) (env : Env) (st : TaskDetail.State) (br : Browser)
        (err : AxiosError),
      task_reply (backend env) (sent br) (TaskDetailSpec.task_request taskId env br)
        = Rejected err ->
      let r := TaskDetail.fetchTask taskId env st br in
      TaskDetail.error (page r) = lit "Failed to load task details"
      /\ match TaskDetail.task st with
         | Some held =>
             TaskDetail.render false (page r)
               = TaskDetail.Content held (Some (lit "Failed to load task details"))
                   (TaskDetail.isEditing st)
         | None => TaskDetail.render false (page r) = TaskDetail.TaskNotFound
         end)
  /\ (forall (env : Env) (st : Admin.State) (br : Browser) (err : AxiosError)
        (u : User),
      role u = lit "admin" ->
      admin_users_reply (backend env) (sent br) (AdminSpec.users_request env br)
        = Rejected err
      \/ admin_tasks_reply (backend env)
           (sent br ++ [AdminSpec.users_request env br]) (AdminSpec.tasks_request env br)
        = Rejected err ->
      let r := Admin.fetchData env st br in
      Admin.error (page r) = lit "Failed to load data"
      /\ Admin.render (Some u) false (page r)
           = Admin.Content (Some (lit "Failed to load data")) (Admin.activeTab st)).
Proof.
  split; [| split; [| split; [| split; [| split]]]].
  - intros. apply dashboard_handlers_keep_session.
  - intros. apply detail_handlers_keep_session.
  - intros. apply admin_handlers_keep_session.
  - intros env st br err u Hrej. destruct st, br.
    run_in Hrej. run. rewrite Hrej. run.
    split; [reflexivity |]. eexists _, _, _. reflexivity.
  - intros taskId env st br err Hrej. destruct st as [held ? ? ? ? ? ? ?], br.
    run_in Hrej. run. rewrite Hrej. run.
    split; [reflexivity |]. by destruct held.
  - intros env st br err u Hadmin Hrej. destruct st, br.
    run_in Hrej. run. unfold Admin.is_admin.
    rewrite (bool_decide_eq_true_2 _ Hadmin). run.
    destruct Hrej as [Hrej | Hrej]; rewrite Hrej.
    + by run.
    + destruct (admin_users_reply _ _ _); by run.
Qed.

(** C2 (as the code has it).  A mutation that the backend accepts is
    followed by a request for the data the acting page holds: GET /tasks
    from the dashboard (create, edit save, status change, delete); GET
    /admin/users and GET /admin/tasks from the admin page (promote,
    force-delete); GET /tasks/{id}, the one task and not the list, from
    the detail page (edit save, status change).  The delete of the detail
    page navigates to the dashboard, whose load effect then sends GET
    /tasks.  Once the reload is answered: when it resolves the page holds
    exactly what it delivered, and when it is rejected the page still
    holds what it held before the mutation. *)
Theorem accepted_mutation_is_followed_by_reload :
  (forall (env : Env) (s st : Dashboard.State) (br : Browser),
      ~ blank (Dashboard.title s) ->
      mutation_verdict env (sent br) (localStorage br) POST (lit "/tasks")
        (CreateBody (DashboardSpec.create_payload s)) = Resolved tt ->
      DashboardSpec.refetched env st br
        (request_config env (localStorage br) POST (lit "/tasks")
           (CreateBody (DashboardSpec.create_payload s)))
        (Dashboard.handleCreateTask s env st br))
  /\ (forall (env : Env) (s st : Dashboard.State) (br : Browser) (t : Task),
      Dashboard.editingTask s = Some t ->
      ~ blank (Dashboard.editTitle s) ->
      mutation_verdict env (sent br) (localStorage br) PUT
        (lit "/tasks/" ++ number_toString (id t))
        (UpdateBody (DashboardSpec.edit_payload s)) = Resolved tt ->
      DashboardSpec.refetched env st br
        (request_config env (localStorage br) PUT
           (lit "/tasks/" ++ number_toString (id t))
           (UpdateBody (DashboardSpec.edit_payload s)))
        (Dashboard.handleSaveEdit s env st br))
  /\ (forall (env : Env) (st : Dashboard.State) (br : Browser)
        (taskId : number) (newStatus : Status),
      mutation_verdict env (sent br) (localStorage br) PUT
        (lit "/tasks/" ++ number_toString taskId)
        (UpdateBody (status_only newStatus)) = Resolved tt ->
      DashboardSpec.refetched env st br
        (request_config env (localStorage br) PUT
           (lit "/tasks/" ++ number_toString taskId)
           (UpdateBody (status_only newStatus)))
        (Dashboard.handleUpdateStatus taskId newStatus env st br))
  /\ (forall (env : Env) (st : Dashboard.State) (br : Browser) (taskId : number),
      window_confirm env (lit "Are you sure you want to delete this task?") = true ->
      mutation_verdict env (sent br) (localStorage br) DELETE
        (lit "/tasks/" ++ number_toString taskId) NoBody = Resolved tt ->
      DashboardSpec.refetched env st br
        (request_config env (localStorage br) DELETE
           (lit "/tasks/" ++ number_toString taskId) NoBody)
        (Dashboard.handleDeleteTask taskId env st br))
  /\ (forall (env : Env) (st : Admin.State) (br : Browser) (userId : number),
      window_confirm env (lit "Promote this user to admin?") = true ->
      mutation_verdict env (sent br) (localStorage br) POST
        (lit "/admin/promote/" ++ number_toString userId) NoBody = Resolved tt ->
      AdminSpec.refreshed env st br
        (request_config env (localStorage br) POST
           (lit "/admin/promote/" ++ number_toString userId) NoBody)
        (Admin.handlePromoteUser userId env st br))
  /\ (forall (env : Env) (st : Admin.State) (br : Browser) (taskId : number),
      window_confirm env (lit "Delete this task?") = true ->
      mutation_verdict env (sent br) (localStorage br) DELETE
        (lit "/admin/tasks/" ++ number_toString taskId) NoBody = Resolved tt ->
      AdminSpec.refreshed env st br
        (request_config env (localStorage br) DELETE
           (lit "/admin/tasks/" ++ number_toString taskId) NoBody)
        (Admin.handleDeleteTask taskId env st br))
  /\ (forall (taskId : jstring) (env : Env) (s st : TaskDetail.State) (br : Browser) (t : Task),
      TaskDetail.task s = Some t ->
      ~ blank (TaskDetail.editTitle s) ->
      mutation_verdict env (sent br) (localStorage br) PUT
        (lit "/tasks/" ++ number_toString (id t))
        (UpdateBody (TaskDetailSpec.edit_payload s)) = Resolved tt ->
      TaskDetailSpec.reloaded taskId env st br
        (request_config env (localStorage br) PUT
           (lit "/tasks/" ++ number_toString (id t))
           (UpdateBody (TaskDetailSpec.edit_payload s)))
        (TaskDetail.handleSaveEdit taskId s env st br))
  /\ (forall (taskId : jstring) (env : Env) (s st : TaskDetail.State) (br : Browser)
        (t : Task) (newStatus : Status),
      TaskDetail.task s = Some t ->
      mutation_verdict env (sent br) (localStorage br) PUT
        (lit "/tasks/" ++ number_toString (id t))
        (UpdateBody (status_only newStatus)) = Resolved tt ->
      TaskDetailSpec.reloaded taskId env st br
        (request_config env (localStorage br) PUT
           (lit "/tasks/" ++ number_toString (id t))
           (UpdateBody (status_only newStatus)))
        (TaskDetail.handleUpdateStatus taskId s newStatus env st br))
  /\ (forall (env : Env) (s st : TaskDetail.State) (br : Browser) (t : Task)
        (u : User) (sd : Dashboard.State),
      TaskDetail.task s = Some t ->
      window_confirm env (lit "Are you sure you want to delete this task?") = true ->
      mutation_verdict env (sent br) (localStorage br) DELETE
        (lit "/tasks/" ++ number_toString (id t)) NoBody = Resolved tt ->
      let q := request_config env (localStorage br) DELETE
                 (lit "/tasks/" ++ number_toString (id t)) NoBody in
      let r := TaskDetail.handleDeleteTask s env st br in
      sent (browser r) = sent br ++ [q]
      /\ pushed (browser r) = pushed br ++ [lit "/dashboard"]
      /\ DashboardSpec.refetched env sd br q
           (Dashboard.load_effect (Some u) env sd (browser r))).
Proof.
  repeat apply conj.
  - intros. by apply dashboard_create_refetches.
  - intros env s st br t Ht Hnb Hok.
    by destruct (dashboard_save_ok env s st br t Ht Hnb Hok) as (_ & _ & _ & Hr).
  - intros env st br taskId newStatus Hok.
    destruct (dashboard_status_run env st br taskId newStatus) as [_ Hm].
    by rewrite Hok in Hm.
  - intros. by apply dashboard_delete_confirmed.
  - intros. by apply admin_promote_confirmed.
  - intros. by apply admin_delete_confirmed.
  - intros taskId env s st br t Ht Hnb Hok.
    by destruct (detail_save_ok taskId env s st br t Ht Hnb Hok) as (_ & _ & Hr).
  - intros taskId env s st br t newStatus Ht Hok.
    destruct (detail_status_run taskId env s st br t newStatus Ht) as [_ Hm].
    by rewrite Hok in Hm.
  - intros env s st br t u sd Ht Hyes Hok q r. subst q r.
    destruct s, st, br, sd. run_in Ht. run_in Hok. subst.
    run. rewrite Hyes, Hok. run. flatten.
    destruct (tasks_reply _ _ _); settle.
Qed.
(** C3. A status change made through a status selector, on the dashboard
    or on the detail page and whatever the state of the edit form, first
    sends PUT /tasks/{id} with a payload whose only field is [status];
    whatever else the handler sends afterwards carries no payload. *)
Theorem status_change_sends_only_status :
  (forall (env : Env) (st : Dashboard.State) (br : Browser)
      (taskId : number) (newStatus : Status),
      exists q rest,
        sent (browser (Dashboard.handleUpdateStatus taskId newStatus env st br))
          = sent br ++ q :: rest
        /\ method q = PUT
        /\ url q = lit "/tasks/" ++ number_toString taskId
        /\ data q = UpdateBody
                      {| u_title := None; u_description := None;
                         u_status := Some newStatus;
                         u_priority := None; u_due_date := None |}
        /\ Forall (fun q' => data q' = NoBody) rest)
  /\ (forall (taskId : jstring) (env : Env) (s st : TaskDetail.State) (br : Browser)
        (t : Task) (newStatus : Status),
      TaskDetail.task s = Some t ->
      exists q rest,
        sent (browser (TaskDetail.handleUpdateStatus taskId s newStatus env st br))
          = sent br ++ q :: rest
        /\ method q = PUT
        /\ url q = lit "/tasks/" ++ number_toString (id t)
        /\ data q = UpdateBody
                      {| u_title := None; u_description := None;
                         u_status := Some newStatus;
                         u_priority := None; u_due_date := None |}
        /\ Forall (fun q' => data q' = NoBody) rest).
Proof.
  split.
  - intros env st br taskId newStatus.
    destruct (dashboard_status_run env st br taskId newStatus) as [_ Hm].
    set (path := lit "/tasks/" ++ number_toString taskId) in *.
    destruct (request_config_frame env (localStorage br) PUT path
                (UpdateBody (status_only newStatus))) as (_ & Hme & Hu & Hd).
    destruct (request_config_frame env (localStorage br) GET (lit "/tasks") NoBody)
      as (_ & _ & _ & Hd').
    destruct (mutation_verdict _ _ _ _ _ _).
    + destruct Hm as [Hs _]. eexists _, _. split; [exact Hs |].
      repeat split; try done. by constructor.
    + destruct Hm as [Hs _]. eexists _, _. split; [exact Hs |].
      repeat split; done.
  - intros taskId env s st br t newStatus Ht.
    destruct (detail_status_run taskId env s st br t newStatus Ht) as [_ Hm].
    set (path := lit "/tasks/" ++ number_toString (id t)) in *.
    destruct (request_config_frame env (localStorage br) PUT path
                (UpdateBody (status_only newStatus))) as (_ & Hme & Hu & Hd).
    destruct (request_config_frame env (localStorage br) GET
                (lit "/tasks/" ++ number_toString (parseInt taskId)) NoBody)
      as (_ & _ & _ & Hd').
    destruct (mutation_verdict _ _ _ _ _ _).
    + destruct Hm as [Hs _]. eexists _, _. split; [exact Hs |].
      repeat split; try done. by constructor.
    + destruct Hm as [Hs _]. eexists _, _. split; [exact Hs |].
      repeat split; done.
Qed.

(** C5. A task-creation attempt with an empty or white-space-only title
    stops at the pre-flight check: the handler completes with the message
    "Title is required" in the inline banner, sends no request, leaves
    the browser as it was, and leaves the task list untouched. *)
Theorem create_blank_title_stops_before_network
    (env : Env) (s st : Dashboard.State) (br : Browser) :
  blank (Dashboard.title s) ->
  let r := Dashboard.handleCreateTask s env st br in
  completion r = Normal tt
  /\ sent (browser r) = sent br
  /\ browser r = br
  /\ Dashboard.tasks (page r) = Dashboard.tasks st
  /\ Dashboard.error_banner (page r) = Some (lit "Title is required").
Proof.
  intros Hb r.
  destruct (dashboard_create_blank env s st br Hb) as (Hc & Hbr & Hp).
  fold r in Hc, Hbr, Hp. rewrite Hbr, Hp. destruct st. by repeat split.
Qed.

(** C6. Every call on the axios instance sends exactly one request, with
    the method, path and body it was given.  When local storage holds a
    (non-empty) token the request carries [Authorization: Bearer <token>];
    when it holds none (or an empty one) the header is absent and the
    request is sent all the same: the call settles with whatever the
    backend replies. *)
Theorem request_carries_bearer_token_when_present
    {S A : Type} (reply : Backend -> Oracle A)
    (m : Method) (path : jstring) (body : Body)
    (env : Env) (st : S) (br : Browser) :
  let r := api_call reply m path body env st br in
  exists q,
    sent (browser r) = sent br ++ [q]
    /\ method q = m /\ url q = path /\ data q = body
    /\ completion r =
         match reply (backend env) (sent br) q with
         | Resolved d => Normal d
         | Rejected err => Throw err
         end
    /\ (forall token, localStorage br !! lit "token" = Some token -> token <> [] ->
          Authorization q = Some (lit "Bearer " ++ token))
    /\ (localStorage br !! lit "token" = None -> Authorization q = None)
    /\ (localStorage br !! lit "token" = Some [] -> Authorization q = None).
Proof.
  intros r. exists (request_config env (localStorage br) m path body).
  destruct (request_config_frame env (localStorage br) m path body) as (_ & Hm & Hu & Hd).
  pose proof (request_config_authorization env (localStorage br) m path body) as Ha.
  repeat split; try done.
  - intros token Ht Hne. rewrite Ha, Ht.
    apply falsy_false_iff in Hne. by rewrite Hne.
  - intros Ht. by rewrite Ha, Ht.
  - intros Ht. by rewrite Ha, Ht.
Qed.

(** C7. The dashboard stores the list the backend delivers as it is, and
    the list it displays is that list filtered by the selected status (the
    whole list for 'all'): a sub-sequence in the delivered order, holding
    exactly the tasks whose status matches. *)
Theorem dashboard_displays_delivered_order_filtered :
  (forall (env : Env) (st : Dashboard.State) (br : Browser) (delivered : list Task),
      tasks_reply (backend env) (sent br) (DashboardSpec.list_request env br)
        = Resolved (Some delivered) ->
      Dashboard.tasks (page (Dashboard.fetchTasks env st br)) = delivered)
  /\ (forall s : Dashboard.State,
      Dashboard.filteredTasks s
        = filter (DashboardSpec.passes (Dashboard.filterStatus s)) (Dashboard.tasks s)
      /\ sublist (Dashboard.filteredTasks s) (Dashboard.tasks s)
      /\ (Dashboard.filterStatus s = all -> Dashboard.filteredTasks s = Dashboard.tasks s)
      /\ (forall task, task ∈ Dashboard.filteredTasks s <->
                       task ∈ Dashboard.tasks s
                       /\ DashboardSpec.passes (Dashboard.filterStatus s) task)).
Proof.
  split.
  - intros env st br delivered Hok.
    destruct (fetchTasks_run env st br) as (_ & _ & _ & _ & _ & _ & Hm).
    unfold DashboardSpec.list_request in Hok. rewrite Hok in Hm.
    destruct Hm as [Ht _]. exact Ht.
  - intros s.
    assert (Heq : Dashboard.filteredTasks s
                  = filter (DashboardSpec.passes (Dashboard.filterStatus s))
                      (Dashboard.tasks s)).
    { unfold Dashboard.filteredTasks. destruct (Dashboard.filterStatus s) as [|wanted].
      - induction (Dashboard.tasks s) as [|t l IH]; [done |].
        rewrite filter_cons_True by done. by rewrite <- IH.
      - apply list_filter_iff. done. }
    split; [exact Heq |]. split; [| split].
    + rewrite Heq. apply sublist_filter.
    + intros Hall. unfold Dashboard.filteredTasks. by rewrite Hall.
    + intros task. rewrite Heq, list_elem_of_filter. tauto.
Qed.

(** C8. Each operation of the task client and of the admin client sends
    exactly one request, with the method and path of the interface table,
    to the base URL; the base URL is the one the environment provides and
    http://localhost:8080/api when it provides none. *)
Theorem api_operations_follow_interface_table (S : Type) :
  (forall d, issues (S := S) (taskAPI.create d) POST (lit "/tasks"))
  /\ issues (S := S) taskAPI.getAll GET (lit "/tasks")
  /\ (forall n, issues (S := S) (taskAPI.getById n) GET (lit "/tasks/" ++ number_toString n))
  /\ (forall n d, issues (S := S) (taskAPI.update n d) PUT (lit "/tasks/" ++ number_toString n))
  /\ (forall n, issues (S := S) (taskAPI.delete n) DELETE (lit "/tasks/" ++ number_toString n))
  /\ issues (S := S) adminAPI.getAllUsers GET (lit "/admin/users")
  /\ issues (S := S) adminAPI.getAllTasks GET (lit "/admin/tasks")
  /\ (forall userId, issues (S := S) (adminAPI.promoteUser userId) POST
                       (lit "/admin/promote/" ++ number_toString userId))
  /\ (forall taskId, issues (S := S) (adminAPI.deleteTask taskId) DELETE
                       (lit "/admin/tasks/" ++ number_toString taskId))
  /\ (forall env, NEXT_PUBLIC_API_URL env = None ->
                  API_URL env = lit "http://localhost:8080/api")
  /\ (forall env configured, NEXT_PUBLIC_API_URL env = Some configured ->
                  configured <> [] -> API_URL env = configured).
Proof.
  repeat split; try (intros; apply api_call_issues).
  - intros env Hnone. unfold API_URL. by rewrite Hnone.
  - intros env configured Hsome Hne. unfold API_URL. rewrite Hsome. simpl.
    apply falsy_false_iff in Hne. by rewrite Hne.
Qed.

(** C9. When the user declines the confirmation dialog of a delete, a
    force-delete or a promotion, the handler returns at once: the page
    state (task list, user list, error message and all the rest) is
    unchanged, no request is sent, and local storage and the router are
    untouched. *)
Theorem declined_confirmation_changes_nothing :
  (forall (env : Env) (st : Dashboard.State) (br : Browser) (taskId : number),
      window_confirm env (lit "Are you sure you want to delete this task?") = false ->
      let r := Dashboard.handleDeleteTask taskId env st br in
      completion r = Normal tt /\ page r = st /\ sent (browser r) = sent br
      /\ localStorage (browser r) = localStorage br /\ pushed (browser r) = pushed br)
  /\ (forall (env : Env) (s st : TaskDetail.State) (br : Browser),
      window_confirm env (lit "Are you sure you want to delete this task?") = false ->
      let r := TaskDetail.handleDeleteTask s env st br in
      completion r = Normal tt /\ page r = st /\ sent (browser r) = sent br
      /\ localStorage (browser r) = localStorage br /\ pushed (browser r) = pushed br)
  /\ (forall (env : Env) (st : Admin.State) (br : Browser) (userId : number),
      window_confirm env (lit "Promote this user to admin?") = false ->
      let r := Admin.handlePromoteUser userId env st br in
      completion r = Normal tt /\ page r = st /\ sent (browser r) = sent br
      /\ localStorage (browser r) = localStorage br /\ pushed (browser r) = pushed br)
  /\ (forall (env : Env) (st : Admin.State) (br : Browser) (taskId : number),
      window_confirm env (lit "Delete this task?") = false ->
      let r := Admin.handleDeleteTask taskId env st br in
      completion r = Normal tt /\ page r = st /\ sent (browser r) = sent br
      /\ localStorage (browser r) = localStorage br /\ pushed (browser r) = pushed br).
Proof.
  repeat apply conj.
  - intros. by apply dashboard_delete_declined.
  - intros. by apply detail_delete_declined.
  - intros. by apply admin_promote_declined.
  - intros. by apply admin_delete_declined.
Qed.

(** C10. Once the session is resolved ([loading] is false) the root page
    navigates exactly once: to /admin for a user whose role is 'admin', to
    /dashboard for a user with any other role, to /login when there is no
    user; the destination is never the root page itself. *)
Theorem home_routes_every_resolved_session
    (env : Env) (br : Browser) (user : option User) :
  let r := Home.effect user false env tt br in
  (forall u, user = Some u -> role u = lit "admin" ->
             pushed (browser r) = pushed br ++ [lit "/admin"])
  /\ (forall u, user = Some u -> role u <> lit "admin" ->
             pushed (browser r) = pushed br ++ [lit "/dashboard"])
  /\ (user = None -> pushed (browser r) = pushed br ++ [lit "/login"])
  /\ (exists destination,
        pushed (browser r) = pushed br ++ [destination] /\ destination <> lit "/").
Proof.
  intros r. subst r. unfold Home.effect. cbn [negb].
  destruct user as [u|]; [case_bool_decide as Hrole |];
    (split; [| split; [| split]]);
    try (intros; simplify_eq; first [reflexivity | contradiction]).
  all: eexists; split; [reflexivity | discriminate].
Qed.
End Contract.

(** ** Beyond the contract: what the pages show and when they load *)

Section DashboardView.
Context `{JsNumber}.
Import Dashboard.

Lemma count_by_status (l : list Task) :
  length l
  = (length (filter (fun t => status t = pending) l)
     + length (filter (fun t => status t = in_progress) l)
     + length (filter (fun t => status t = completed) l))%nat.
Proof.
  induction l as [|t l IH]; [done |].
  rewrite !filter_cons. cbn [length]. rewrite IH.
  destruct (status t); repeat case_decide; try done; cbn [length]; lia.
Qed.

(** X1. The four counters of the dashboard: the three status counters add
    up to the total, and the counter of the selected filter is the number
    of cards in the displayed list. *)
Theorem stats_count_the_displayed_lists (s : State) :
  total (stats s)
  = (pendingCount (stats s) + inProgressCount (stats s) + completedCount (stats s))%nat
  /\ (filterStatus s = all -> length (filteredTasks s) = total (stats s))
  /\ (filterStatus s = having pending -> length (filteredTasks s) = pendingCount (stats s))
  /\ (filterStatus s = having in_progress ->
        length (filteredTasks s) = inProgressCount (stats s))
  /\ (filterStatus s = having completed ->
        length (filteredTasks s) = completedCount (stats s)).
Proof.
  split; [apply count_by_status |].
  unfold filteredTasks, stats; cbn [total pendingCount inProgressCount completedCount].
  repeat split; intros Hf; by rewrite Hf.
Qed.

Lemma request_config_method (env : Env) (storage : gmap jstring jstring)
    (m : Method) (path : jstring) (body : Body) :
  method (request_config env storage m path body) = m.
Proof. by destruct (request_config_frame env storage m path body) as (_ & ? & _). Qed.

Lemma request_config_url (env : Env) (storage : gmap jstring jstring)
    (m : Method) (path : jstring) (body : Body) :
  url (request_config env storage m path body) = path.
Proof. by destruct (request_config_frame env storage m path body) as (_ & _ & ? & _). Qed.

Lemma request_config_data (env : Env) (storage : gmap jstring jstring)
    (m : Method) (path : jstring) (body : Body) :
  data (request_config env storage m path body) = body.
Proof. by destruct (request_config_frame env storage m path body) as (_ & _ & _ & ?). Qed.

(** X2. Opening the edit modal on a task and saving without touching the
    form sends PUT /tasks/{id} of that task with the task's own title,
    description, priority and due date, and no status; opening alone
    sends nothing. *)
Theorem open_edit_then_save_sends_the_task_fields
    (env : Env) (st : State) (br : Browser) (t : Task) :
  ~ blank (Model.title t) ->
  let opened := handleOpenEdit t env st br in
  let r := handleSaveEdit (page opened) env (page opened) (browser opened) in
  browser opened = br
  /\ exists q rest,
       sent (browser r) = sent br ++ q :: rest
       /\ method q = PUT
       /\ url q = lit "/tasks/" ++ number_toString (id t)
       /\ data q = UpdateBody
                     {| u_title := Some (Model.title t);
                        u_description := Some (Model.description t);
                        u_status := None;
                        u_priority := Some (Model.priority t);
                        u_due_date := Some (due_date t) |}.
Proof.
  intros Hnb. apply trim_not_blank in Hnb.
  destruct st, br. run. rewrite Hnb. split; [reflexivity |].
  crunch; eexists _, _; (split; [flatten; reflexivity |]);
    by rewrite request_config_method, request_config_url, request_config_data.
Qed.

(** X3. After Cancel the modal is closed and no task is being edited, the
    task list is as it was, and a save arriving then does nothing: no
    request, no change of state. *)
Theorem cancelled_edit_cannot_be_saved
    (env : Env) (st : State) (br : Browser) (t : Task) :
  let opened := page (handleOpenEdit t env st br) in
  let cancelled := page (cancelEdit env opened br) in
  let r := handleSaveEdit cancelled env cancelled br in
  showEditModal cancelled = false
  /\ editingTask cancelled = None
  /\ tasks cancelled = tasks st
  /\ completion r = Normal tt
  /\ page r = cancelled
  /\ browser r = br.
Proof. destruct st, br. run. by repeat split. Qed.

(** X4. A status change or a delete on the dashboard, whatever the backend
    answers, leaves the create form, the filter, the edit modal and the
    edit buffer exactly as they were. *)
Theorem list_actions_leave_forms_untouched
    (env : Env) (st : State) (br : Browser) (taskId : number) (newStatus : Status) :
  DashboardSpec.forms_untouched st (page (handleUpdateStatus taskId newStatus env st br))
  /\ DashboardSpec.forms_untouched st (page (handleDeleteTask taskId env st br)).
Proof. destruct st, br. split; crunch; by repeat split. Qed.


(** X6. When the backend accepts a create, the form is reset to its
    initial values and hidden, whatever the reload brings. *)
Theorem accepted_create_resets_the_form
    (env : Env) (s st : State) (br : Browser) :
  ~ blank (title s) ->
  mutation_verdict env (sent br) (localStorage br) POST (lit "/tasks")
    (CreateBody (DashboardSpec.create_payload s)) = Resolved tt ->
  let r := handleCreateTask s env st br in
  title (page r) = [] /\ description (page r) = []
  /\ priority (page r) = medium /\ dueDate (page r) = []
  /\ showCreateForm (page r) = false.
Proof.
  intros Hnb Hok. apply trim_not_blank in Hnb.
  destruct s, st, br. run_in Hnb. run_in Hok. run. rewrite Hnb, Hok.
  destruct (tasks_reply _ _ _); by run.
Qed.

(** X7. When the backend rejects a create, nothing is reloaded, the form
    and the task list stay as they were, and the banner shows the
    backend's error text when the response carries a non-empty one and
    "Failed to create task" otherwise (also when there is no response at
    all). *)
Theorem rejected_create_keeps_the_draft
    (env : Env) (s st : State) (br : Browser) (err : AxiosError) :
  ~ blank (title s) ->
  let q := request_config env (localStorage br) POST (lit "/tasks")
             (CreateBody (DashboardSpec.create_payload s)) in
  mutation_reply (backend env) (sent br) q = Rejected err ->
  let r := handleCreateTask s env st br in
  completion r = Normal tt
  /\ sent (browser r) = sent br ++ [q]
  /\ tasks (page r) = tasks st
  /\ DashboardSpec.forms_untouched st (page r)
  /\ (forall text, response_data_error err = Some text -> text <> [] ->
                   error_banner (page r) = Some text)
  /\ (response_data_error err = None \/ response_data_error err = Some [] ->
        error_banner (page r) = Some (lit "Failed to create task"))
  /\ (response err = None -> error_banner (page r) = Some (lit "Failed to create task")).
Proof.
  intros Hnb q Hrej. subst q. apply trim_not_blank in Hnb.
  destruct s, st, br. run_in Hnb. run_in Hrej. run. rewrite Hnb, Hrej. run.
  unfold error_banner. run.
  assert (Hcases : forall o : option jstring, o = None \/ o = Some [] ->
            or_else o (lit "Failed to create task") = lit "Failed to create task").
  { intros o [-> | ->]; reflexivity. }
  repeat split.
  - intros text Ht Hne. rewrite Ht. destruct text; [done |]. reflexivity.
  - intros Hnone. by rewrite (Hcases _ Hnone).
  - intros Hnone. unfold response_data_error. by rewrite Hnone.
Qed.
(** X8. The dashboard without a signed-in user, once the session is
    resolved: the guard navigates to /login, the load effect sends no
    request and nothing is rendered.  With a user the guard does not
    navigate, the load effect sends exactly GET /tasks, and the Admin
    Panel link is shown exactly for the role 'admin'. *)
Theorem dashboard_needs_a_signed_in_user (env : Env) (st : State) (br : Browser) :
  (pushed (browser (guard_effect None false env st br)) = pushed br ++ [lit "/login"]
   /\ load_effect None env st br
        = {| completion := Normal tt; page := st; browser := br |}
   /\ render None false st = Nothing)
  /\ (forall u : User,
        browser (guard_effect (Some u) false env st br) = br
        /\ sent (browser (load_effect (Some u) env st br))
             = sent br ++ [DashboardSpec.list_request env br]
        /\ exists banner area modal,
             render (Some u) false st
               = Content (bool_decide (role u = lit "admin")) banner area modal).
Proof.
  destruct st, br. split.
  - run. by repeat split.
  - intros u. repeat split.
    + crunch; flatten; reflexivity.
    + eexists _, _, _. reflexivity.
Qed.
End DashboardView.

Section DetailView.
Context `{JsNumber}.
Import TaskDetail.

(** X9. What the detail page shows after a load.  A resolved load shows
    the delivered task.  A rejected first load shows the "Task not found"
    screen, which has no banner, although the error message has been set.
    A rejected reload keeps showing the task held before, under the banner
    "Failed to load task details". *)
Theorem detail_view_after_load
    (taskId : jstring) (env : Env) (st : State) (br : Browser) :
  let r := fetchTask taskId env st br in
  match task_reply (backend env) (sent br) (TaskDetailSpec.task_request taskId env br) with
  | Resolved t => render false (page r) = Content t (error_banner st) (isEditing st)
  | Rejected _ =>
      error (page r) = lit "Failed to load task details"
      /\ match task st with
         | None => render false (page r) = TaskNotFound
         | Some held =>
             render false (page r)
               = Content held (Some (lit "Failed to load task details")) (isEditing st)
         end
  end.
Proof.
  destruct st as [held ? ? ? ? ? ? ?], br. run.
  destruct (task_reply _ _ _); run; [reflexivity |].
  split; [reflexivity |]. by destruct held.
Qed.

(** X10. A status change on the detail page made while editing: once the
    backend has accepted it and the reload has resolved, the edit buffer
    holds the delivered task's fields (what was typed is gone) and the
    page is still in the edit mode it was in. *)
Theorem detail_status_change_resets_edit_buffer
    (taskId : jstring) (env : Env) (s st : State) (br : Browser)
    (t delivered : Task) (newStatus : Status) :
  task s = Some t ->
  let q := request_config env (localStorage br) PUT
             (lit "/tasks/" ++ number_toString (id t))
             (UpdateBody (status_only newStatus)) in
  mutation_reply (backend env) (sent br) q = Resolved tt ->
  task_reply (backend env) (sent br ++ [q]) (TaskDetailSpec.task_request taskId env br)
    = Resolved delivered ->
  let r := handleUpdateStatus taskId s newStatus env st br in
  isEditing (page r) = isEditing st
  /\ task (page r) = Some delivered
  /\ editTitle (page r) = Model.title delivered
  /\ editDescription (page r) = Model.description delivered
  /\ editPriority (page r) = Model.priority delivered
  /\ editDueDate (page r) = due_date delivered.
Proof.
  intros Ht q Hok Hload. subst q.
  destruct s, st, br. run_in Ht. run_in Hok. run_in Hload. subst.
  run. rewrite Hok, Hload. by run.
Qed.

(** X11. The handlers of the detail page when no task is loaded: save and
    status change do nothing at all; delete still asks for confirmation
    but, even when confirmed, sends nothing and does not navigate. *)
Theorem detail_handlers_need_a_loaded_task
    (taskId : jstring) (env : Env) (s st : State) (br : Browser) (newStatus : Status) :
  task s = None ->
  handleSaveEdit taskId s env st br
    = {| completion := Normal tt; page := st; browser := br |}
  /\ handleUpdateStatus taskId s newStatus env st br
    = {| completion := Normal tt; page := st; browser := br |}
  /\ (let r := handleDeleteTask s env st br in
      completion r = Normal tt /\ page r = st
      /\ sent (browser r) = sent br /\ pushed (browser r) = pushed br
      /\ dialogs (browser r)
           = dialogs br ++ [lit "Are you sure you want to delete this task?"]).
Proof.
  intros Ht. destruct s, st, br. run_in Ht. subst. run.
  repeat split; crunch; by repeat split.
Qed.

(** X12. The detail page without a signed-in user, once the session is
    resolved: the guard navigates to /login and the load effect sends no
    request, so the page stays on its loading screen. *)
Theorem detail_needs_a_signed_in_user (taskId : jstring) (env : Env) (br : Browser) :
  pushed (browser (guard_effect None false env initial br)) = pushed br ++ [lit "/login"]
  /\ load_effect taskId None env initial br
       = {| completion := Normal tt; page := initial; browser := br |}
  /\ render false (page (load_effect taskId None env initial br)) = LoadingScreen
  /\ (forall u : User,
        browser (guard_effect (Some u) false env initial br) = br
        /\ sent (browser (load_effect taskId (Some u) env initial br))
             = sent br ++ [TaskDetailSpec.task_request taskId env br]).
Proof.
  destruct br. unfold initial. run. repeat split.
  crunch; flatten; reflexivity.
Qed.
End DetailView.

Section AdminView.
Context `{JsNumber}.
Import Admin.

(** X13. The admin page is for admins only.  For a visitor who is not
    signed in, or whose role is not 'admin', once the session is resolved
    the guard navigates to /dashboard, the load effect sends no request
    and nothing is rendered.  For an admin the guard does not navigate and
    the load effect requests the users and then the tasks. *)
Theorem admin_page_is_for_admins_only
    (env : Env) (st : State) (br : Browser) (user : option User) :
  (is_admin user = false ->
     pushed (browser (guard_effect user false env st br)) = pushed br ++ [lit "/dashboard"]
     /\ load_effect user env st br
          = {| completion := Normal tt; page := st; browser := br |}
     /\ render user false st = Nothing)
  /\ (is_admin user = true ->
     browser (guard_effect user false env st br) = br
     /\ sent (browser (load_effect user env st br))
          = sent br ++ [AdminSpec.users_request env br; AdminSpec.tasks_request env br]
     /\ render user false st <> Nothing)
  /\ (is_admin user = true <-> exists u, user = Some u /\ role u = lit "admin").
Proof.
  destruct st, br. repeat apply conj.
  - intros Hno. run. rewrite Hno. by repeat split.
  - intros Hyes. run. rewrite Hyes.
    repeat split; first [discriminate | crunch; flatten; reflexivity].
  - intros Hyes. destruct user as [u|]; [| discriminate].
    exists u. split; [done |]. by apply bool_decide_eq_true in Hyes.
  - intros (u & -> & Hrole). by apply bool_decide_eq_true.
Qed.
End AdminView.

Section AcrossPages.
Context `{JsNumber}.

(** X14. A visitor who is not signed in and opens the admin page is sent
    to the dashboard by the admin guard and from there to the login page
    by the dashboard guard; neither page sends a request for them. *)
Theorem signed_out_admin_visit_ends_at_login
    (env : Env) (br : Browser) (sa : Admin.State) (sd : Dashboard.State) :
  let at_admin := Admin.guard_effect None false env sa
                    (browser (Admin.load_effect None env sa br)) in
  let at_dashboard := Dashboard.guard_effect None false env sd
                        (browser (Dashboard.load_effect None env sd (browser at_admin))) in
  pushed (browser at_dashboard) = pushed br ++ [lit "/dashboard"; lit "/login"]
  /\ sent (browser at_dashboard) = sent br.
Proof.
  destruct br, sa, sd. run. unfold Admin.is_admin. run.
  split; [flatten |]; reflexivity.
Qed.
(** X15. When the backend rejects a status change, a delete, a
    force-delete or a promotion, the handler completes normally, sends
    nothing further (no reload), and changes nothing in the page but the
    error message, which is the handler's fixed text whatever error text
    the backend sent. *)
Theorem rejected_list_action_shows_fixed_message
    (env : Env) (br : Browser) (err : AxiosError) :
  (forall (st : Dashboard.State) (taskId : number) (newStatus : Status),
      let q := request_config env (localStorage br) PUT
                 (lit "/tasks/" ++ number_toString taskId)
                 (UpdateBody (status_only newStatus)) in
      mutation_reply (backend env) (sent br) q = Rejected err ->
      let r := Dashboard.handleUpdateStatus taskId newStatus env st br in
      completion r = Normal tt /\ sent (browser r) = sent br ++ [q]
      /\ page r = page (Dashboard.setError (lit "Failed to update task status") env st br))
  /\ (forall (st : Dashboard.State) (taskId : number),
      let q := request_config env (localStorage br) DELETE
                 (lit "/tasks/" ++ number_toString taskId) NoBody in
      window_confirm env (lit "Are you sure you want to delete this task?") = true ->
      mutation_reply (backend env) (sent br) q = Rejected err ->
      let r := Dashboard.handleDeleteTask taskId env st br in
      completion r = Normal tt /\ sent (browser r) = sent br ++ [q]
      /\ page r = page (Dashboard.setError (lit "Failed to delete task") env st br))
  /\ (forall (route : jstring) (s st : TaskDetail.State) (t : Task) (newStatus : Status),
      let q := request_config env (localStorage br) PUT
                 (lit "/tasks/" ++ number_toString (id t))
                 (UpdateBody (status_only newStatus)) in
      TaskDetail.task s = Some t ->
      mutation_reply (backend env) (sent br) q = Rejected err ->
      let r := TaskDetail.handleUpdateStatus route s newStatus env st br in
      completion r = Normal tt /\ sent (browser r) = sent br ++ [q]
      /\ page r = page (TaskDetail.setError (lit "Failed to update status") env st br))
  /\ (forall (s st : TaskDetail.State) (t : Task),
      let q := request_config env (localStorage br) DELETE
                 (lit "/tasks/" ++ number_toString (id t)) NoBody in
      TaskDetail.task s = Some t ->
      window_confirm env (lit "Are you sure you want to delete this task?") = true ->
      mutation_reply (backend env) (sent br) q = Rejected err ->
      let r := TaskDetail.handleDeleteTask s env st br in
      completion r = Normal tt /\ sent (browser r) = sent br ++ [q]
      /\ pushed (browser r) = pushed br
      /\ page r = page (TaskDetail.setError (lit "Failed to delete task") env st br))
  /\ (forall (st : Admin.State) (userId : number),
      let q := request_config env (localStorage br) POST
                 (lit "/admin/promote/" ++ number_toString userId) NoBody in
      window_confirm env (lit "Promote this user to admin?") = true ->
      mutation_reply (backend env) (sent br) q = Rejected err ->
      let r := Admin.handlePromoteUser userId env st br in
      completion r = Normal tt /\ sent (browser r) = sent br ++ [q]
      /\ page r = page (Admin.setError (lit "Failed to promote user") env st br))
  /\ (forall (st : Admin.State) (taskId : number),
      let q := request_config env (localStorage br) DELETE
                 (lit "/admin/tasks/" ++ number_toString taskId) NoBody in
      window_confirm env (lit "Delete this task?") = true ->
      mutation_reply (backend env) (sent br) q = Rejected err ->
      let r := Admin.handleDeleteTask taskId env st br in
      completion r = Normal tt /\ sent (browser r) = sent br ++ [q]
      /\ page r = page (Admin.setError (lit "Failed to delete task") env st br)).
Proof.
  destruct br. repeat apply conj.
  - intros st taskId newStatus q Hrej. subst q. destruct st.
    run_in Hrej. run. rewrite Hrej. by repeat split.
  - intros st taskId q Hyes Hrej. subst q. destruct st.
    run_in Hrej. run. rewrite Hyes, Hrej. by repeat split.
  - intros route s st t newStatus q Ht Hrej. subst q. destruct s, st.
    run_in Ht. run_in Hrej. subst. run. rewrite Hrej. by repeat split.
  - intros s st t q Ht Hyes Hrej. subst q. destruct s, st.
    run_in Ht. run_in Hrej. subst. run. rewrite Hyes, Hrej. by repeat split.
  - intros st userId q Hyes Hrej. subst q. destruct st.
    run_in Hrej. run. rewrite Hyes, Hrej. by repeat split.
  - intros st taskId q Hyes Hrej. subst q. destruct st.
    run_in Hrej. run. rewrite Hyes, Hrej. by repeat split.
Qed.

Lemma mutations_cons_get (env : Env) (storage : gmap jstring jstring)
    (path : jstring) (body : Body) (log : list Request) :
  mutations (request_config env storage GET path body :: log) = mutations log.
Proof.
  unfold mutations. rewrite filter_cons, request_config_method.
  by destruct (decide (GET <> GET)).
Qed.

Lemma mutations_cons_other (env : Env) (storage : gmap jstring jstring)
    (m : Method) (path : jstring) (body : Body) (log : list Request) :
  m <> GET ->
  mutations (request_config env storage m path body :: log)
  = request_config env storage m path body :: mutations log.
Proof.
  intros Hm. unfold mutations. rewrite filter_cons, request_config_method.
  by destruct (decide (m <> GET)).
Qed.

(** Every run appends to the log; the appended requests are counted. *)
Ltac appended :=
  first [ eexists; split; [flatten; reflexivity |]
        | exists []; split; [by rewrite app_nil_r |] ];
  rewrite ?mutations_cons_get, ?mutations_cons_other by discriminate;
  rewrite ?mutations_cons_get; cbn; lia.

(** X16. No handler repeats a mutation: whatever the backend answers, a
    run appends at most one request that is not a GET to the log of sent
    requests, and the data-loading functions append none. *)
Theorem handlers_send_at_most_one_mutation
    (env : Env) (br : Browser) (taskId userId : number) (newStatus : Status)
    (route : jstring) :
  (forall s st : Dashboard.State,
      (exists new, sent (browser (Dashboard.fetchTasks env st br)) = sent br ++ new
                   /\ length (mutations new) = 0%nat)
      /\ (exists new, sent (browser (Dashboard.handleCreateTask s env st br)) = sent br ++ new
                      /\ (length (mutations new) <= 1)%nat)
      /\ (exists new, sent (browser (Dashboard.handleSaveEdit s env st br)) = sent br ++ new
                      /\ (length (mutations new) <= 1)%nat)
      /\ (exists new, sent (browser (Dashboard.handleUpdateStatus taskId newStatus env st br))
                        = sent br ++ new
                      /\ (length (mutations new) <= 1)%nat)
      /\ (exists new, sent (browser (Dashboard.handleDeleteTask taskId env st br))
                        = sent br ++ new
                      /\ (length (mutations new) <= 1)%nat))
  /\ (forall s st : TaskDetail.State,
      (exists new, sent (browser (TaskDetail.fetchTask route env st br)) = sent br ++ new
                   /\ length (mutations new) = 0%nat)
      /\ (exists new, sent (browser (TaskDetail.handleSaveEdit route s env st br))
                        = sent br ++ new
                      /\ (length (mutations new) <= 1)%nat)
      /\ (exists new, sent (browser (TaskDetail.handleUpdateStatus route s newStatus env st br))
                        = sent br ++ new
                      /\ (length (mutations new) <= 1)%nat)
      /\ (exists new, sent (browser (TaskDetail.handleDeleteTask s env st br))
                        = sent br ++ new
                      /\ (length (mutations new) <= 1)%nat))
  /\ (forall st : Admin.State,
      (exists new, sent (browser (Admin.fetchData env st br)) = sent br ++ new
                   /\ length (mutations new) = 0%nat)
      /\ (exists new, sent (browser (Admin.handlePromoteUser userId env st br))
                        = sent br ++ new
                      /\ (length (mutations new) <= 1)%nat)
      /\ (exists new, sent (browser (Admin.handleDeleteTask taskId env st br))
                        = sent br ++ new
                      /\ (length (mutations new) <= 1)%nat)).
Proof.
  destruct br. repeat apply conj.
  - intros s st. destruct s, st. repeat apply conj; crunch; appended.
  - intros s st. destruct s, st. repeat apply conj; crunch; appended.
  - intros st. destruct st. repeat apply conj; crunch; appended.
Qed.

(** X17. Settled states show no spinner that was not there: once the
    backend has answered, with data or with an error, a run of
    [fetchTasks], [fetchTask] or [fetchData] has cleared the loading flag
    of its page; and in the settled state of any other handler, the
    reload it starts included, the flag is clear whenever it was clear
    before. *)
Theorem settled_runs_leave_no_spinner_on
    (env : Env) (br : Browser) (taskId userId : number) (newStatus : Status)
    (route : jstring) :
  (forall s st : Dashboard.State,
      Dashboard.tasksLoading (page (Dashboard.fetchTasks env st br)) = false
      /\ (Dashboard.tasksLoading st = false ->
          Dashboard.tasksLoading (page (Dashboard.handleCreateTask s env st br)) = false
          /\ Dashboard.tasksLoading (page (Dashboard.handleSaveEdit s env st br)) = false
          /\ Dashboard.tasksLoading
               (page (Dashboard.handleUpdateStatus taskId newStatus env st br)) = false
          /\ Dashboard.tasksLoading
               (page (Dashboard.handleDeleteTask taskId env st br)) = false))
  /\ (forall s st : TaskDetail.State,
      TaskDetail.loading (page (TaskDetail.fetchTask route env st br)) = false
      /\ (TaskDetail.loading st = false ->
          TaskDetail.loading (page (TaskDetail.handleSaveEdit route s env st br)) = false
          /\ TaskDetail.loading
               (page (TaskDetail.handleUpdateStatus route s newStatus env st br)) = false
          /\ TaskDetail.loading (page (TaskDetail.handleDeleteTask s env st br)) = false))
  /\ (forall st : Admin.State,
      Admin.dataLoading (page (Admin.fetchData env st br)) = false
      /\ (Admin.dataLoading st = false ->
          Admin.dataLoading (page (Admin.handlePromoteUser userId env st br)) = false
          /\ Admin.dataLoading (page (Admin.handleDeleteTask taskId env st br)) = false)).
Proof.
  destruct br. repeat apply conj.
  - intros s st. destruct s, st. split; [by crunch |].
    intros Hoff. run_in Hoff. subst. repeat apply conj; by crunch.
  - intros s st. destruct s, st. split; [by crunch |].
    intros Hoff. run_in Hoff. subst. repeat apply conj; by crunch.
  - intros st. destruct st. split; [by crunch |].
    intros Hoff. cbn in Hoff. subst. repeat apply conj; by crunch.
Qed.

(** X18. Confirmation dialogs: a delete, a force-delete and a promotion
    show exactly one dialog, with their own question, in every run; the
    other handlers never show one. *)
Theorem only_destructive_handlers_ask
    (env : Env) (br : Browser) (taskId userId : number) (newStatus : Status)
    (route : jstring) :
  (forall s st : Dashboard.State,
      dialogs (browser (Dashboard.handleDeleteTask taskId env st br))
        = dialogs br ++ [lit "Are you sure you want to delete this task?"]
      /\ dialogs (browser (Dashboard.fetchTasks env st br)) = dialogs br
      /\ dialogs (browser (Dashboard.handleCreateTask s env st br)) = dialogs br
      /\ dialogs (browser (Dashboard.handleSaveEdit s env st br)) = dialogs br
      /\ dialogs (browser (Dashboard.handleUpdateStatus taskId newStatus env st br))
           = dialogs br)
  /\ (forall s st : TaskDetail.State,
      dialogs (browser (TaskDetail.handleDeleteTask s env st br))
        = dialogs br ++ [lit "Are you sure you want to delete this task?"]
      /\ dialogs (browser (TaskDetail.fetchTask route env st br)) = dialogs br
      /\ dialogs (browser (TaskDetail.handleSaveEdit route s env st br)) = dialogs br
      /\ dialogs (browser (TaskDetail.handleUpdateStatus route s newStatus env st br))
           = dialogs br)
  /\ (forall st : Admin.State,
      dialogs (browser (Admin.handlePromoteUser userId env st br))
        = dialogs br ++ [lit "Promote this user to admin?"]
      /\ dialogs (browser (Admin.handleDeleteTask taskId env st br))
           = dialogs br ++ [lit "Delete this task?"]
      /\ dialogs (browser (Admin.fetchData env st br)) = dialogs br).
Proof.
  destruct br. repeat apply conj.
  - intros s st. destruct s, st. repeat apply conj; by crunch.
  - intros s st. destruct s, st. repeat apply conj; by crunch.
  - intros st. destruct st. repeat apply conj; by crunch.
Qed.

(** X19. The request interceptor is idempotent; with a non-empty stored
    token it sets the Authorization header whatever the configuration
    held before, and without one it returns the configuration unchanged,
    a header already present included. *)
Theorem interceptor_is_idempotent (storage : gmap jstring jstring) (config : Request) :
  interceptor storage (interceptor storage config) = interceptor storage config
  /\ (forall token, storage !! lit "token" = Some token -> token <> [] ->
        Authorization (interceptor storage config) = Some (lit "Bearer " ++ token))
  /\ (storage !! lit "token" = None \/ storage !! lit "token" = Some [] ->
        interceptor storage config = config).
Proof.
  unfold interceptor. destruct (storage !! lit "token") as [[|c token]|];
    cbn; repeat split;
    first [ reflexivity
          | discriminate
          | intros ? [= <-] ?; first [done | reflexivity]
          | intros [? | ?]; first [discriminate | reflexivity] ].
Qed.

(** X20. The three calls of the auth client follow the interface table
    (POST /auth/register, POST /auth/login, GET /auth/me), send what they
    are given and nothing else, and go through the interceptor like every
    other call: with a token in local storage even register and login
    carry the Authorization header. *)
Theorem auth_calls_follow_table_and_carry_token
    (S : Type) (env : Env) (st : S) (br : Browser) (email password name : jstring) :
  let authorization :=
    match localStorage br !! lit "token" with
    | Some token => if falsy token then None else Some (lit "Bearer " ++ token)
    | None => None
    end in
  (exists q, sent (browser (authAPI.register email password name env st br)) = sent br ++ [q]
             /\ method q = POST /\ url q = lit "/auth/register"
             /\ data q = RegisterBody email password name
             /\ Authorization q = authorization)
  /\ (exists q, sent (browser (authAPI.login email password env st br)) = sent br ++ [q]
             /\ method q = POST /\ url q = lit "/auth/login"
             /\ data q = LoginBody email password
             /\ Authorization q = authorization)
  /\ (exists q, sent (browser (authAPI.getMe env st br)) = sent br ++ [q]
             /\ method q = GET /\ url q = lit "/auth/me"
             /\ data q = NoBody
             /\ Authorization q = authorization).
Proof.
  intros authorization. subst authorization.
  repeat split; eexists; (split; [reflexivity |]);
    rewrite request_config_method, request_config_url, request_config_data,
      request_config_authorization; done.
Qed.
End AcrossPages.

Section OwnerName.
Context `{JsNumber}.
Variable strict_eq : number -> number -> bool.

Lemma find_first_match {A : Type} (f : A -> bool) (before : list A) (x : A)
    (after : list A) :
  (forall y, y ∈ before -> f y = false) ->
  f x = true ->
  List.find f (before ++ x :: after) = Some x.
Proof.
  intros Hbefore Hx. induction before as [|y before IH]; cbn.
  - by rewrite Hx.
  - rewrite (Hbefore y) by apply list_elem_of_here.
    apply IH. intros z Hz. apply Hbefore. by apply list_elem_of_further.
Qed.

(** X21. The owner shown on a task card of the admin page is the name of
    the first listed user whose id is the task's user id, "Unknown" when
    that name is empty, and "Unknown" when no listed user has that id; it
    is never empty. *)
Theorem owner_name_is_first_match_or_unknown (s : Admin.State) (t : AdminTask) :
  Admin.owner_name strict_eq s t <> []
  /\ ((forall u, u ∈ Admin.users s -> strict_eq (user_ident u) (at_user_id t) = false) ->
      Admin.owner_name strict_eq s t = lit "Unknown")
  /\ (forall before u after,
        Admin.users s = before ++ u :: after ->
        (forall v, v ∈ before -> strict_eq (user_ident v) (at_user_id t) = false) ->
        strict_eq (user_ident u) (at_user_id t) = true ->
        Admin.owner_name strict_eq s t
        = if falsy (name u) then lit "Unknown" else name u).
Proof.
  unfold Admin.owner_name. repeat split.
  - destruct (List.find _ (Admin.users s)) as [u|]; cbn; [| discriminate].
    destruct (name u); cbn; discriminate.
  - intros Hnone.
    destruct (List.find _ (Admin.users s)) as [u|] eqn:Hfind; [| reflexivity].
    apply List.find_some in Hfind as [Hin Heq]. apply list_elem_of_In in Hin.
    rewrite (Hnone u Hin) in Heq. discriminate.
  - intros before u after Husers Hbefore Hu.
    rewrite Husers.
    rewrite (find_first_match
               (fun v => strict_eq (user_ident v) (at_user_id t)) before u after Hbefore Hu).
    reflexivity.
Qed.
End OwnerName.

(** ** The contract on concrete inputs *)

#[local] Existing Instance Sample.naturals.

(** A backend answering 401 to a request that carries the stored token:
    the dashboard keeps the token, does not navigate, and renders its
    inline banner.  The session is not cleared and the login page is not
    reached. *)
Lemma expired_token_keeps_session_and_shows_banner :
  let r := Dashboard.fetchTasks Sample.env_expired Dashboard.initial Sample.logged_in in
  (exists q,
      sent (browser r) = [q]
      /\ Authorization q = Some (lit "Bearer abc")
      /\ tasks_reply (backend Sample.env_expired) [] q = Rejected Sample.unauthorized
      /\ (http_status <$> response Sample.unauthorized) = Some 401)
  /\ localStorage (browser r) !! lit "token" = Some (lit "abc")
  /\ pushed (browser r) = []
  /\ (lit "/login" ∉ pushed (browser r))
  /\ Dashboard.error_banner (page r) = Some (lit "Failed to load tasks")
  /\ Dashboard.render (Some Sample.ann) false (page r)
       = Dashboard.Content true (Some (lit "Failed to load tasks"))
           Dashboard.NoTasksFound None.
Proof.
  cbv zeta. split; [| split; [| split; [| split; [| split]]]].
  - eexists. split; [vm_compute; reflexivity |]. by vm_compute.
  - by vm_compute.
  - by vm_compute.
  - vm_compute. by inversion 1.
  - by vm_compute.
  - by vm_compute.
Qed.

Lemma rejected_call_witness :
  TaskDetail.render false
    (page (TaskDetail.fetchTask (lit "7") Sample.env_expired TaskDetail.initial
             Sample.logged_in))
    = TaskDetail.TaskNotFound
  /\ exists admin_link area modal,
       Dashboard.render (Some Sample.ann) false
         (page (Dashboard.fetchTasks Sample.env_expired Dashboard.initial Sample.logged_in))
       = Dashboard.Content admin_link (Some (lit "Failed to load tasks")) area modal.
Proof.
  destruct (@rejected_call_keeps_session_and_shows_error Sample.naturals)
    as (_ & _ & _ & Hdashboard & Hdetail & _).
  split.
  - destruct (Hdetail (lit "7") Sample.env_expired TaskDetail.initial Sample.logged_in
                Sample.unauthorized) as [_ Hview]; [reflexivity |].
    exact Hview.
  - destruct (Hdashboard Sample.env_expired Dashboard.initial Sample.logged_in
                Sample.unauthorized Sample.ann) as [_ Hview]; [reflexivity |].
    exact Hview.
Defined.

(** Two accepted mutations.  A delete on the dashboard whose reload fails
    in transport: the page still holds the list it held before, the
    deleted task included.  An edit save on the detail page: the only
    request after the PUT is for that one task; the task list is not
    requested and the page does not navigate. *)
Lemma accepted_mutation_can_leave_the_old_copy :
  (let r := Dashboard.handleDeleteTask (Some 7) Sample.env_reads_fail
              Sample.editing_milk Sample.logged_in in
   completion r = Normal tt
   /\ List.map method (sent (browser r)) = [DELETE; GET]
   /\ List.map url (sent (browser r)) = [lit "/tasks/7"; lit "/tasks"]
   /\ id Sample.milk = Some 7
   /\ Dashboard.tasks (page r) = [Sample.milk]
   /\ Dashboard.filteredTasks (page r) = [Sample.milk])
  /\ (let r := TaskDetail.handleSaveEdit (lit "7") Sample.retitling_milk
                 Sample.env_accepting Sample.retitling_milk Sample.logged_in in
      completion r = Normal tt
      /\ List.map method (sent (browser r)) = [PUT; GET]
      /\ List.map url (sent (browser r)) = [lit "/tasks/7"; lit "/tasks/7"]
      /\ (lit "/tasks" ∉ List.map url (sent (browser r)))
      /\ pushed (browser r) = []).
Proof.
  cbv zeta. repeat split; try by vm_compute.
  vm_compute. intros Hin.
  repeat (apply elem_of_cons in Hin as [Hin | Hin]; [discriminate Hin |]).
  by apply elem_of_nil in Hin.
Qed.

Lemma accepted_mutation_reload_witness :
  DashboardSpec.refetched Sample.env_accepting Sample.editing_milk Sample.logged_in
    (request_config Sample.env_accepting (localStorage Sample.logged_in) PUT
       (lit "/tasks/" ++ number_toString (Some 7)) (UpdateBody (status_only completed)))
    (Dashboard.handleUpdateStatus (Some 7) completed Sample.env_accepting
       Sample.editing_milk Sample.logged_in).
Proof.
  destruct (@accepted_mutation_is_followed_by_reload Sample.naturals)
    as (_ & _ & Hstatus & _).
  apply Hstatus. reflexivity.
Defined.

Lemma status_change_witness :
  exists q rest,
    sent (browser (TaskDetail.handleUpdateStatus (lit "7") Sample.viewing_milk completed
                     Sample.env_accepting Sample.viewing_milk Sample.logged_in))
      = sent Sample.logged_in ++ q :: rest
    /\ method q = PUT
    /\ url q = lit "/tasks/" ++ number_toString (Some 7)
    /\ data q = UpdateBody
                  {| u_title := None; u_description := None;
                     u_status := Some completed;
                     u_priority := None; u_due_date := None |}
    /\ Forall (fun q' => data q' = NoBody) rest.
Proof.
  destruct (@status_change_sends_only_status Sample.naturals) as [_ Hdetail].
  apply (Hdetail (lit "7") Sample.env_accepting Sample.viewing_milk Sample.viewing_milk
           Sample.logged_in Sample.milk completed).
  reflexivity.
Defined.



Lemma create_blank_title_witness :
  let r := Dashboard.handleCreateTask Sample.blank_draft Sample.env_accepting
             Sample.blank_draft Sample.logged_in in
  completion r = Normal tt
  /\ sent (browser r) = sent Sample.logged_in
  /\ browser r = Sample.logged_in
  /\ Dashboard.tasks (page r) = Dashboard.tasks Sample.blank_draft
  /\ Dashboard.error_banner (page r) = Some (lit "Title is required").
Proof.
  apply (@create_blank_title_stops_before_network Sample.naturals).
  apply trim_falsy_iff. vm_compute. reflexivity.
Defined.

Lemma bearer_token_witness :
  exists q,
    sent (browser (taskAPI.getAll Sample.env_accepting tt Sample.logged_in)) = [q]
    /\ Authorization q = Some (lit "Bearer abc").
Proof.
  destruct (@request_carries_bearer_token_when_present Sample.naturals unit _
              tasks_reply GET (lit "/tasks") NoBody Sample.env_accepting tt Sample.logged_in)
    as (q & Hsent & _ & _ & _ & _ & Hauth & _).
  exists q. split; [exact Hsent |].
  apply Hauth; [vm_compute; reflexivity | discriminate].
Defined.

Lemma delivered_order_witness :
  Dashboard.tasks (page (Dashboard.fetchTasks Sample.env_accepting Dashboard.initial
                           Sample.logged_in))
    = [Sample.milk; Sample.bread].
Proof.
  destruct (@dashboard_displays_delivered_order_filtered Sample.naturals) as [Hstored _].
  apply Hstored. reflexivity.
Defined.

Lemma interface_table_witness :
  API_URL Sample.env_accepting = lit "http://localhost:8080/api".
Proof.
  destruct (@api_operations_follow_interface_table Sample.naturals unit)
    as (_ & _ & _ & _ & _ & _ & _ & _ & _ & Hdefault & _).
  apply Hdefault. reflexivity.
Defined.

Lemma declined_confirmation_witness :
  let r := Dashboard.handleDeleteTask (Some 7) Sample.env_declining
             Sample.editing_milk Sample.logged_in in
  completion r = Normal tt /\ page r = Sample.editing_milk
  /\ sent (browser r) = sent Sample.logged_in
  /\ localStorage (browser r) = localStorage Sample.logged_in
  /\ pushed (browser r) = pushed Sample.logged_in.
Proof.
  destruct (@declined_confirmation_changes_nothing Sample.naturals) as [Hdashboard _].
  apply Hdashboard. reflexivity.
Defined.

Lemma home_routes_witness :
  pushed (browser (Home.effect (Some Sample.ann) false Sample.env_accepting tt
                     Sample.logged_in))
    = pushed Sample.logged_in ++ [lit "/admin"].
Proof.
  destruct (@home_routes_every_resolved_session Sample.naturals Sample.env_accepting
              Sample.logged_in (Some Sample.ann)) as [Hadmin _].
  apply (Hadmin Sample.ann); reflexivity.
Defined.

(** ** The further properties on concrete inputs *)

Lemma stats_witness :
  length (Dashboard.filteredTasks Sample.completed_only)
    = Dashboard.completedCount (Dashboard.stats Sample.completed_only).
Proof.
  destruct (@stats_count_the_displayed_lists Sample.naturals Sample.completed_only)
    as (_ & _ & _ & _ & Hcompleted).
  apply Hcompleted. reflexivity.
Defined.

Lemma open_edit_then_save_witness :
  let opened := Dashboard.handleOpenEdit Sample.milk Sample.env_accepting
                  Dashboard.initial Sample.logged_in in
  let r := Dashboard.handleSaveEdit (page opened) Sample.env_accepting (page opened)
             (browser opened) in
  browser opened = Sample.logged_in
  /\ exists q rest,
       sent (browser r) = sent Sample.logged_in ++ q :: rest
       /\ method q = PUT
       /\ url q = lit "/tasks/" ++ number_toString (id Sample.milk)
       /\ data q = UpdateBody
                     {| u_title := Some (Model.title Sample.milk);
                        u_description := Some (Model.description Sample.milk);
                        u_status := None;
                        u_priority := Some (Model.priority Sample.milk);
                        u_due_date := Some (due_date Sample.milk) |}.
Proof.
  apply (@open_edit_then_save_sends_the_task_fields Sample.naturals).
  intros Hblank. apply trim_falsy_iff in Hblank. vm_compute in Hblank. discriminate.
Defined.


Lemma accepted_create_witness :
  let r := Dashboard.handleCreateTask Sample.draft Sample.env_accepting Sample.draft
             Sample.logged_in in
  Dashboard.title (page r) = [] /\ Dashboard.description (page r) = []
  /\ Dashboard.priority (page r) = medium /\ Dashboard.dueDate (page r) = []
  /\ Dashboard.showCreateForm (page r) = false.
Proof.
  apply (@accepted_create_resets_the_form Sample.naturals).
  - intros Hblank. apply trim_falsy_iff in Hblank. vm_compute in Hblank. discriminate.
  - reflexivity.
Defined.

Lemma rejected_create_witness :
  Dashboard.error_banner
    (page (Dashboard.handleCreateTask Sample.draft Sample.env_expired Sample.draft
             Sample.logged_in))
    = Some (lit "token expired").
Proof.
  destruct (@rejected_create_keeps_the_draft Sample.naturals Sample.env_expired
              Sample.draft Sample.draft Sample.logged_in Sample.unauthorized)
    as (_ & _ & _ & _ & Htext & _).
  - intros Hblank. apply trim_falsy_iff in Hblank. vm_compute in Hblank. discriminate.
  - reflexivity.
  - apply Htext; [reflexivity | discriminate].
Defined.

Lemma detail_status_change_witness :
  let r := TaskDetail.handleUpdateStatus (lit "7") Sample.retitling_milk completed
             Sample.env_accepting Sample.retitling_milk Sample.logged_in in
  TaskDetail.isEditing (page r) = true
  /\ TaskDetail.editTitle (page r) = lit "Buy milk".
Proof.
  destruct (@detail_status_change_resets_edit_buffer Sample.naturals (lit "7")
              Sample.env_accepting Sample.retitling_milk Sample.retitling_milk
              Sample.logged_in Sample.milk Sample.milk completed)
    as (Hmode & _ & Htitle & _); try reflexivity.
  split; [exact Hmode | exact Htitle].
Defined.

Lemma detail_without_task_witness :
  TaskDetail.handleSaveEdit (lit "7") TaskDetail.initial Sample.env_accepting
    TaskDetail.initial Sample.logged_in
  = {| completion := Normal tt; page := TaskDetail.initial; browser := Sample.logged_in |}.
Proof.
  destruct (@detail_handlers_need_a_loaded_task Sample.naturals (lit "7")
              Sample.env_accepting TaskDetail.initial TaskDetail.initial Sample.logged_in
              completed) as (Hsave & _).
  - reflexivity.
  - exact Hsave.
Defined.

Lemma admin_only_witness :
  pushed (browser (Admin.guard_effect (Some Sample.bob) false Sample.env_accepting
                     Admin.initial Sample.logged_in))
    = pushed Sample.logged_in ++ [lit "/dashboard"]
  /\ Admin.render (Some Sample.bob) false Admin.initial = Admin.Nothing.
Proof.
  destruct (@admin_page_is_for_admins_only Sample.naturals Sample.env_accepting
              Admin.initial Sample.logged_in (Some Sample.bob)) as (Hother & _).
  destruct Hother as (Hpush & _ & Hview); [reflexivity |].
  split; [exact Hpush | exact Hview].
Defined.

Lemma rejected_list_action_witness :
  let r := Dashboard.handleUpdateStatus (Some 7) completed Sample.env_expired
             Sample.draft Sample.logged_in in
  completion r = Normal tt
  /\ Dashboard.error (page r) = lit "Failed to update task status"
  /\ Dashboard.tasks (page r) = Dashboard.tasks Sample.draft.
Proof.
  destruct (@rejected_list_action_shows_fixed_message Sample.naturals Sample.env_expired
              Sample.logged_in Sample.unauthorized) as (Hstatus & _).
  destruct (Hstatus Sample.draft (Some 7) completed) as (Hdone & _ & Hpage);
    [reflexivity |].
  split; [exact Hdone |]. rewrite Hpage. split; reflexivity.
Defined.

Lemma spinner_witness :
  Dashboard.tasksLoading
    (page (Dashboard.handleDeleteTask (Some 7) Sample.env_accepting Sample.draft
             Sample.logged_in)) = false.
Proof.
  destruct (@settled_runs_leave_no_spinner_on Sample.naturals Sample.env_accepting
              Sample.logged_in (Some 7) (Some 1) completed (lit "7")) as (Hdashboard & _).
  destruct (Hdashboard Sample.draft Sample.draft) as (_ & Hoff).
  destruct Hoff as (_ & _ & _ & Hdelete); [reflexivity |].
  exact Hdelete.
Defined.

Lemma interceptor_witness :
  Authorization
    (interceptor (localStorage Sample.logged_in)
       {| baseURL := []; method := GET; url := lit "/tasks";
          Authorization := Some (lit "Basic xyz"); data := NoBody |})
    = Some (lit "Bearer abc").
Proof.
  destruct (interceptor_is_idempotent (localStorage Sample.logged_in)
              {| baseURL := []; method := GET; url := lit "/tasks";
                 Authorization := Some (lit "Basic xyz"); data := NoBody |})
    as (_ & Hset & _).
  apply Hset; [vm_compute; reflexivity | discriminate].
Defined.

Lemma owner_name_witness :
  Admin.owner_name Sample.strict_eq Sample.panel Sample.chore = lit "Bob".
Proof.
  destruct (@owner_name_is_first_match_or_unknown Sample.naturals Sample.strict_eq
              Sample.panel Sample.chore) as (_ & _ & Hfirst).
  apply (Hfirst [Sample.ann] Sample.bob []).
  - reflexivity.
  - intros v Hv. apply list_elem_of_singleton in Hv. by subst v.
  - reflexivity.
Defined.
